(** * ddns-updater: the Namecheap and DonDominio providers and the health server

    A shallow embedding of
    - [internal/settings/providers/namecheap/provider.go],
    - [internal/settings/providers/dondominio/provider.go],
    - the health server's [Run] loop (package [health]),
    together with the parts of Go's [net], [net/url] and [net/http]
    packages these three files call.

    Conventions.
    - A Go [string] is a [string] (a sequence of 8-bit characters).
    - A Go [int] is a [Z]; none of the arithmetic below can leave 64 bits.
    - A Go slice that may be [nil] is an [option (list _)]: [None] is the
      nil slice, [Some []] an empty slice that is not nil.
    - A Go [error] result is an [option error]: [None] is the nil error.
    - A call that may panic returns an [outcome]. *)

From Stdlib Require Import ZArith List String Ascii Bool Lia DecimalString.
From Stdlib.Strings Require Import Byte.
From stdpp Require Import gmap strings list sorting.
Import ListNotations.

#[local] Open Scope string_scope.
#[local] Open Scope Z_scope.

(** ** Small helpers on strings (Go's [len(s)], [s[i]], [s[c:]]) *)

Module gostr.

Definition len (s : string) : Z := Z.of_nat (String.length s).

(** [s[c:]] for [0 <= c <= len(s)]. *)
Fixpoint drop (c : nat) (s : string) : string :=
  match c, s with
  | O, _ => s
  | S c', String _ s' => drop c' s'
  | S _, EmptyString => EmptyString
  end.

Definition code (c : ascii) : Z := Z.of_N (N_of_ascii c).

Definition between (lo hi c : ascii) : bool :=
  (code lo <=? code c) && (code c <=? code hi).

(** [strconv.Itoa] / the [%d] verb on an [int]. *)
Definition itoa (n : Z) : string := NilZero.string_of_int (Z.to_int n).

End gostr.

(** ** Package [net]: the [IP] type and the functions on it *)

Module net.

(** [type IP []byte]; [None] is the nil slice. *)
Definition IP : Type := option (list byte).

(** [ip == nil] *)
Definition is_nil (ip : IP) : bool :=
  match ip with None => true | Some _ => false end.

Definition bytes (ip : IP) : list byte := default [] ip.

Definition IPv4len : nat := 4.
Definition IPv6len : nat := 16.

Definition byte_of_Z (n : Z) : byte :=
  default x00 (Byte.of_N (Z.to_N (n mod 256))).

Definition Z_of_byte (b : byte) : Z := Z.of_N (Byte.to_N b).

Definition v4InV6Prefix : list byte :=
  [x00; x00; x00; x00; x00; x00; x00; x00; x00; x00; xff; xff].

(** [func IPv4(a, b, c, d byte) IP]: the 16-byte form. *)
Definition IPv4 (a b c d : byte) : IP := Some (v4InV6Prefix ++ [a; b; c; d])%list.

Definition isZeros (p : list byte) : bool := forallb (Byte.eqb x00) p.

(** [bytealg.Equal] *)
Fixpoint bytes_eqb (a b : list byte) : bool :=
  match a, b with
  | [], [] => true
  | x :: a', y :: b' => Byte.eqb x y && bytes_eqb a' b'
  | _, _ => false
  end.

(** [func (ip IP) To4() IP] *)
Definition To4 (ip : IP) : IP :=
  let p := bytes ip in
  if (length p =? IPv4len)%nat then ip
  else if (length p =? IPv6len)%nat
          && isZeros (take 10 p)
          && Byte.eqb (nth 10 p x00) xff
          && Byte.eqb (nth 11 p x00) xff
       then Some (take 4 (drop 12 p))
       else None.

(** [func (ip IP) Equal(x IP) bool] *)
Definition Equal (ip x : IP) : bool :=
  let p := bytes ip in
  let q := bytes x in
  if (length p =? length q)%nat then bytes_eqb p q
  else if (length p =? IPv4len)%nat && (length q =? IPv6len)%nat
       then bytes_eqb (take 12 q) v4InV6Prefix && bytes_eqb p (drop 12 q)
  else if (length p =? IPv6len)%nat && (length q =? IPv4len)%nat
       then bytes_eqb (take 12 p) v4InV6Prefix && bytes_eqb (drop 12 p) q
  else false.

(** *** Parsing: [func ParseIP(s string) IP]

    The textual parser of Go's [net] package ([dtoi], [xtoi],
    [parseIPv4], [parseIPv6], as in Go 1.17 to 1.21). *)

Definition big : Z := 16777215. (* 0xFFFFFF *)

(** [dtoi]: decimal to integer; returns the number, the count of
    characters consumed and a success flag. *)
Fixpoint dtoi_loop (s : string) (n : Z) (i : nat) : Z * nat * bool :=
  match s with
  | String c s' =>
      if gostr.between "0" "9" c then
        let n' := n * 10 + (gostr.code c - gostr.code "0") in
        if big <=? n' then (big, i, false)
        else dtoi_loop s' n' (S i)
      else if (i =? 0)%nat then (0, O, false) else (n, i, true)
  | EmptyString => if (i =? 0)%nat then (0, O, false) else (n, i, true)
  end.

Definition dtoi (s : string) : Z * nat * bool := dtoi_loop s 0 O.

Definition hex_value (c : ascii) : option Z :=
  if gostr.between "0" "9" c then Some (gostr.code c - gostr.code "0")
  else if gostr.between "a" "f" c then Some (gostr.code c - gostr.code "a" + 10)
  else if gostr.between "A" "F" c then Some (gostr.code c - gostr.code "A" + 10)
  else None.

(** [xtoi]: hexadecimal to integer. *)
Fixpoint xtoi_loop (s : string) (n : Z) (i : nat) : Z * nat * bool :=
  match s with
  | String c s' =>
      match hex_value c with
      | Some d =>
          let n' := n * 16 + d in
          if big <=? n' then (0, i, false)
          else xtoi_loop s' n' (S i)
      | None => if (i =? 0)%nat then (0, i, false) else (n, i, true)
      end
  | EmptyString => if (i =? 0)%nat then (0, i, false) else (n, i, true)
  end.

Definition xtoi (s : string) : Z * nat * bool := xtoi_loop s 0 O.

Definition starts_with (c : ascii) (s : string) : bool :=
  match s with
  | String c' _ => Ascii.eqb c c'
  | EmptyString => false
  end.

(** The loop of [parseIPv4] over the four fields: [k] fields are still
    to be read, [first] says that no field was read yet. The result is
    the bytes read and what is left of the string. *)
Fixpoint parseIPv4_fields (k : nat) (first : bool) (s : string)
  : option (list byte * string) :=
  match k with
  | O => Some ([], s)
  | S k' =>
      if gostr.len s =? 0 then None (* missing octets *)
      else
        let after_dot :=
          if first then Some s
          else if starts_with "." s then Some (gostr.drop 1 s) else None in
        match after_dot with
        | None => None
        | Some s1 =>
            let '(n, c, ok) := dtoi s1 in
            if negb ok || (255 <? n) then None
            else if (1 <? c)%nat && starts_with "0" s1 then None
            else
              match parseIPv4_fields k' false (gostr.drop c s1) with
              | Some (p, rest) => Some (byte_of_Z n :: p, rest)
              | None => None
              end
        end
  end.

Definition parseIPv4 (s : string) : IP :=
  match parseIPv4_fields 4 true s with
  | Some ([a; b; c; d], EmptyString) => IPv4 a b c d
  | _ => None
  end.

Definition set_byte (ip : list byte) (i : Z) (b : byte) : list byte :=
  <[Z.to_nat i := b]> ip.

(** The main loop of [parseIPv6]: [None] is [return nil]; otherwise the
    state [(ip, ellipsis, i, s)] at the loop's exit. Every turn adds at
    least 2 to [i], so eight turns reach [IPv6len]. *)
Fixpoint parseIPv6_loop (fuel : nat) (ip : list byte) (ellipsis i : Z) (s : string)
  : option (list byte * Z * Z * string) :=
  match fuel with
  | O => Some (ip, ellipsis, i, s)
  | S fuel' =>
      if i <? 16 then
        let '(n, c, ok) := xtoi s in
        if negb ok || (65535 <? n) then None
        else if (Z.of_nat c <? gostr.len s) && starts_with "." (gostr.drop c s) then
          (* a trailing IPv4 part *)
          if (ellipsis <? 0) && negb (i =? 12) then None
          else if 16 <? i + 4 then None
          else
            match parseIPv4 s with
            | None => None
            | Some ip4 =>
                let ip := set_byte ip i (nth 12 ip4 x00) in
                let ip := set_byte ip (i + 1) (nth 13 ip4 x00) in
                let ip := set_byte ip (i + 2) (nth 14 ip4 x00) in
                let ip := set_byte ip (i + 3) (nth 15 ip4 x00) in
                Some (ip, ellipsis, i + 4, "")
            end
        else
          let ip := set_byte ip i (byte_of_Z (Z.shiftr n 8)) in
          let ip := set_byte ip (i + 1) (byte_of_Z n) in
          let i := i + 2 in
          let s := gostr.drop c s in
          if gostr.len s =? 0 then Some (ip, ellipsis, i, s)
          else if negb (starts_with ":" s) || (gostr.len s =? 1) then None
          else
            let s := gostr.drop 1 s in
            if starts_with ":" s then
              if 0 <=? ellipsis then None
              else
                let ellipsis := i in
                let s := gostr.drop 1 s in
                if gostr.len s =? 0 then Some (ip, ellipsis, i, s)
                else parseIPv6_loop fuel' ip ellipsis i s
            else parseIPv6_loop fuel' ip ellipsis i s
      else Some (ip, ellipsis, i, s)
  end.

(** [for j := i - 1; j >= ellipsis; j-- { ip[j+n] = ip[j] }] *)
Fixpoint expand_move (fuel : nat) (ip : list byte) (j n ellipsis : Z) : list byte :=
  match fuel with
  | O => ip
  | S fuel' =>
      if ellipsis <=? j
      then expand_move fuel' (set_byte ip (j + n) (nth (Z.to_nat j) ip x00))
             (j - 1) n ellipsis
      else ip
  end.

(** [for j := ellipsis + n - 1; j >= ellipsis; j-- { ip[j] = 0 }] *)
Fixpoint expand_clear (fuel : nat) (ip : list byte) (j ellipsis : Z) : list byte :=
  match fuel with
  | O => ip
  | S fuel' =>
      if ellipsis <=? j
      then expand_clear fuel' (set_byte ip j x00) (j - 1) ellipsis
      else ip
  end.

Definition parseIPv6 (s : string) : IP :=
  let ip := replicate 16 x00 in
  let lead := (2 <=? gostr.len s) && starts_with ":" s
              && starts_with ":" (gostr.drop 1 s) in
  let ellipsis := if lead then 0 else -1 in
  let s := if lead then gostr.drop 2 s else s in
  if lead && (gostr.len s =? 0) then Some ip
  else
    match parseIPv6_loop 9 ip ellipsis 0 s with
    | None => None
    | Some (ip, ellipsis, i, s) =>
        if negb (gostr.len s =? 0) then None
        else if i <? 16 then
          if ellipsis <? 0 then None
          else
            let n := 16 - i in
            let ip := expand_move 16 ip (i - 1) n ellipsis in
            let ip := expand_clear 16 ip (ellipsis + n - 1) ellipsis in
            Some ip
        else if 0 <=? ellipsis then None
        else Some ip
    end.

Fixpoint ParseIP_scan (rest whole : string) : IP :=
  match rest with
  | String c rest' =>
      if Ascii.eqb c "." then parseIPv4 whole
      else if Ascii.eqb c ":" then parseIPv6 whole
      else ParseIP_scan rest' whole
  | EmptyString => None
  end.

Definition ParseIP (s : string) : IP := ParseIP_scan s s.

(** *** Formatting: [func (ip IP) String() string] *)

Definition hexDigit : string := "0123456789abcdef".

Definition hex_char (v : Z) : ascii :=
  default "0"%char (String.get (Z.to_nat (Z.land v 15)) hexDigit).

(** [hexString]: two lower-case hex digits per byte. *)
Fixpoint hexString (b : list byte) : string :=
  match b with
  | [] => ""
  | x :: b' =>
      String (hex_char (Z.shiftr (Z_of_byte x) 4))
        (String (hex_char (Z_of_byte x)) (hexString b'))
  end.

(** [ubtoa]: a byte in decimal. *)
Definition ubtoa (b : byte) : string := gostr.itoa (Z_of_byte b).

(** [appendHex]: a 16-bit group in hex without leading zeros; the loop
    runs [j] from 7 down to 0. *)
Fixpoint appendHex_loop (j : nat) (i : Z) : string :=
  let digit :=
    let v := Z.shiftr i (Z.of_nat j * 4) in
    if 0 <? v then String (hex_char v) "" else "" in
  match j with
  | O => digit
  | S j' => digit ++ appendHex_loop j' i
  end.

Definition appendHex (i : Z) : string :=
  if i =? 0 then "0" else appendHex_loop 7 i.

Definition byte_at (p : list byte) (i : Z) : Z :=
  Z_of_byte (nth (Z.to_nat i) p x00).

(** The inner loop [for j < IPv6len && p[j] == 0 && p[j+1] == 0 { j += 2 }]. *)
Fixpoint zero_run_end (fuel : nat) (p : list byte) (j : Z) : Z :=
  match fuel with
  | O => j
  | S fuel' =>
      if (j <? 16) && (byte_at p j =? 0) && (byte_at p (j + 1) =? 0)
      then zero_run_end fuel' p (j + 2)
      else j
  end.

(** The outer loop that finds the longest run of zero groups,
    [(e0, e1)], starting from [(-1, -1)]. *)
Fixpoint longest_zero_run (fuel : nat) (p : list byte) (i e0 e1 : Z) : Z * Z :=
  match fuel with
  | O => (e0, e1)
  | S fuel' =>
      if i <? 16 then
        let j := zero_run_end 8 p i in
        if (i <? j) && (e1 - e0 <? j - i)
        then longest_zero_run fuel' p (j + 2) i j
        else longest_zero_run fuel' p (i + 2) e0 e1
      else (e0, e1)
  end.

Definition group_at (p : list byte) (i : Z) : Z :=
  Z.lor (Z.shiftl (byte_at p i) 8) (byte_at p (i + 1)).

(** The printing loop, with [::] in place of the run [e0, e1). *)
Fixpoint print_groups (fuel : nat) (p : list byte) (i e0 e1 : Z) : string :=
  match fuel with
  | O => ""
  | S fuel' =>
      if i <? 16 then
        if i =? e0 then
          if 16 <=? e1 then "::"
          else "::" ++ appendHex (group_at p e1)
                    ++ print_groups fuel' p (e1 + 2) e0 e1
        else
          (if 0 <? i then ":" else "")
            ++ appendHex (group_at p i)
            ++ print_groups fuel' p (i + 2) e0 e1
      else ""
  end.

Definition String (ip : IP) : string :=
  let p := bytes ip in
  if (length p =? 0)%nat then "<nil>"
  else
    let p4 := bytes (To4 ip) in
    if (length p4 =? IPv4len)%nat then
      ubtoa (nth 0 p4 x00) ++ "." ++ ubtoa (nth 1 p4 x00) ++ "."
        ++ ubtoa (nth 2 p4 x00) ++ "." ++ ubtoa (nth 3 p4 x00)
    else if negb (length p =? IPv6len)%nat then "?" ++ hexString p
    else
      let '(e0, e1) := longest_zero_run 8 p 0 (-1) (-1) in
      let '(e0, e1) := if e1 - e0 <=? 2 then (-1, -1) else (e0, e1) in
      print_groups 8 p 0 e0 e1.

End net.

#[global] Arguments net.ParseIP : simpl never.
#[global] Arguments net.Equal : simpl never.
#[global] Arguments net.String : simpl never.
#[global] Arguments net.To4 : simpl never.

(** ** Package [net/url]: [Values], [QueryEscape], [Encode], [URL.String] *)

Module url.

(** [type Values map[string][]string] *)
Abbreviation Values := (gmap string (list string)).

(** [func (v Values) Set(key, value string)]: [v[key] = []string{value}] *)
Definition Set_ (key value : string) (v : Values) : Values :=
  <[key := [value]]> v.

(** [shouldEscape(c, encodeQueryComponent)]: only the unreserved
    characters stay as they are. *)
Definition shouldEscape (c : ascii) : bool :=
  if gostr.between "a" "z" c || gostr.between "A" "Z" c || gostr.between "0" "9" c
  then false
  else if Ascii.eqb c "-" || Ascii.eqb c "_" || Ascii.eqb c "." || Ascii.eqb c "~"
  then false
  else true.

Definition upperhex : string := "0123456789ABCDEF".

Definition upper_hex_char (v : Z) : ascii :=
  default "0"%char (String.get (Z.to_nat (Z.land v 15)) upperhex).

(** [func QueryEscape(s string) string] *)
Fixpoint QueryEscape (s : string) : string :=
  match s with
  | EmptyString => EmptyString
  | String c s' =>
      if Ascii.eqb c " " then String "+" (QueryEscape s')
      else if shouldEscape c then
        String "%" (String (upper_hex_char (Z.shiftr (gostr.code c) 4))
                      (String (upper_hex_char (gostr.code c)) (QueryEscape s')))
      else String c (QueryEscape s')
  end.

(** [sort.Strings] on the keys of the map. *)
Definition sorted_keys (v : Values) : list string :=
  merge_sort (λ a b, String.leb a b) (map fst (map_to_list v)).

(** The [key=value] pairs of [Encode], in the order they are written. *)
Definition encoded_pairs (v : Values) : list string :=
  flat_map
    (λ k, map (λ x, QueryEscape k ++ "=" ++ QueryEscape x) (default [] (v !! k)))
    (sorted_keys v).

(** [func (v Values) Encode() string]: the pairs sorted by key and
    joined by [&]. *)
Definition Encode (v : Values) : string := String.concat "&" (encoded_pairs v).

(** [type URL struct]: the fields the providers set. *)
Record URL := { Scheme : string; Host : string; Path : string; RawQuery : string }.

(** [func (u *URL) String() string], for a URL with a scheme and a host
    that need no escaping (the literal ones the providers use). *)
Definition String (u : URL) : string :=
  Scheme u ++ "://" ++ Host u ++ Path u
    ++ (if String.eqb (RawQuery u) "" then "" else "?" ++ RawQuery u).

End url.

(** ** Package [internal/settings/errors] and Go's [error] values *)

Module errors.

(** Modelled from the spec: the package-level error values of
    [internal/settings/errors], which is not part of the sources at
    hand; one constructor per value the two providers name (spec
    section 7 lists the kinds). *)
Inductive sentinel :=
| ErrIPv6NotSupported
| ErrMalformedPassword
| ErrEmptyUsername
| ErrEmptyPassword
| ErrEmptyName
| ErrHostOnlyAt
| ErrBadHTTPStatus
| ErrUnmarshalResponse
| ErrUnsuccessfulResponse
| ErrIPReceivedMalformed
| ErrIPReceivedMismatch.

#[global] Instance sentinel_eq_dec : EqDecision sentinel.
Proof. solve_decision. Defined.

(** A Go [error] value:
    - one of the package-level values,
    - [fmt.Errorf("%w: ...", s, ...)]: the value [s] wrapped, with the
      text formatted after ["%w: "],
    - an error made by a library ([encoding/json], [encoding/xml],
      [net/http]), known by its message. *)
Inductive error :=
| Sentinel (s : sentinel)
| Wrapf (s : sentinel) (detail : string)
| Foreign (msg : string).

(** [errors.Is(err, target)] for a package-level [target]. *)
Definition Is (err : error) (target : sentinel) : bool :=
  match err with
  | Sentinel s | Wrapf s _ => bool_decide (s = target)
  | Foreign _ => false
  end.

(** What a call that returns [(value, error)] gives. *)
Inductive result (A : Type) :=
| ok (a : A)
| failed (err : error).
#[global] Arguments ok {A} a.
#[global] Arguments failed {A} err.

(** A call either returns or panics. *)
Inductive outcome (A : Type) :=
| Returned (a : A)
| Panicked (reason : string).
#[global] Arguments Returned {A} a.
#[global] Arguments Panicked {A} reason.

End errors.
Export errors.

(** ** What the repository's other packages provide

    The helpers [utils.BodyToSingleLine] and [headers.Set...] and the
    texts of the error values belong to packages of the repository whose
    sources are not at hand; they are taken as parameters. *)

Class Repo := {
  (** [err.Error()] of each package-level error value. *)
  sentinel_text : sentinel → string;
  (** The value [headers.SetUserAgent] sends. *)
  userAgent : string;
  (** [utils.BodyToSingleLine(response.Body)], as a function of the
      bytes of the body. *)
  BodyToSingleLine : string → string;
}.

(** [func (e error) Error() string] *)
Definition Error `{!Repo} (err : error) : string :=
  match err with
  | Sentinel s => sentinel_text s
  | Wrapf s detail => sentinel_text s ++ ": " ++ detail
  | Foreign msg => msg
  end.

(** ** Package [net/http]: requests, responses and the client *)

Module http.

(** [context.Context]: an interface value, [None] when nil. Of a
    context only its [Err()] is kept. *)
Record ctx := { ctx_Err : option error }.
Definition Context : Type := option ctx.

Abbreviation Header := (gmap string (list string)).

Record Request := {
  Method : string;
  URL : string;
  Body : option string;
  Headers : Header;
  Ctx : ctx;
}.

Record Response := {
  StatusCode : Z;
  ResponseBody : string;
}.

Definition StatusOK : Z := 200.
Definition MethodGet : string := "GET".
Definition MethodPost : string := "POST".

(** [*http.Client], by what [client.Do(request)] returns. *)
Record Client := { Do : Request → result Response }.

(** [http.NewRequestWithContext(ctx, method, url, body)] for the
    methods and URLs the providers build (a valid method, a URL that
    parses): it fails on a nil context only. *)
Definition NewRequestWithContext (c : Context) (method url : string)
    (body : option string) : result Request :=
  match c with
  | None => failed (Foreign "net/http: nil Context")
  | Some c =>
      ok {| Method := method; URL := url; Body := body; Headers := ∅; Ctx := c |}
  end.

(** [request.Header.Set(key, value)] *)
Definition Header_Set (key value : string) (r : Request) : Request :=
  {| Method := Method r; URL := URL r; Body := Body r;
     Headers := <[key := [value]]> (Headers r); Ctx := Ctx r |}.

End http.

(** Modelled from the spec: package [internal/settings/headers], which is
    not part of the sources at hand. Spec sections 4.2 and 4.3 name the
    headers: a user-agent, [Accept] and [Content-Type]. *)
Module headers.

Definition SetUserAgent `{!Repo} (r : http.Request) : http.Request :=
  http.Header_Set "User-Agent" userAgent r.

Definition SetAccept (r : http.Request) (value : string) : http.Request :=
  http.Header_Set "Accept" value r.

Definition SetContentType (r : http.Request) (value : string) : http.Request :=
  http.Header_Set "Content-Type" value r.

End headers.

(** What [Update] hands back, read as the contract of the provider
    interface: a confirmed IP and no error, or no IP and an error. *)
Definition confirmed_or_failed (r : net.IP * option error) : Prop :=
  (fst r ≠ None ∧ snd r = None) ∨ (fst r = None ∧ snd r ≠ None).

(** Modelled from the spec: [ipversion.IPVersion] of package
    [pkg/publicip/ipversion], which is not part of the sources at hand.
    The spec (section 3) gives the enumeration IPv4 | IPv6; [IP4or6] is
    the value of a record that accepts both. *)
Module ipversion.

Inductive IPVersion := IP4or6 | IP4 | IP6.

#[global] Instance IPVersion_eq_dec : EqDecision IPVersion.
Proof. solve_decision. Defined.

End ipversion.

(** ** Package [namecheap] *)

Module namecheap.
Import ipversion.

(** Modelled from the spec: the interface [common.Matcher], which is
    not part of the sources at hand; the provider calls its method
    [NamecheapPassword] only (spec sections 2 and 3: an injected
    predicate on the shape of a credential). *)
Record Matcher := { NamecheapPassword : string → bool }.

Record Provider := {
  domain : string;
  host : string;
  ipVersion : IPVersion;
  password : string;
  useProviderIP : bool;
  matcher : Matcher;
}.

(** The anonymous struct [extraSettings] of [New]. *)
Record extraSettings := { Password : string; UseProviderIP : bool }.

(** The anonymous struct [parsedXML] of [Update]; [Errors_Error] is
    the field [Errors.Error]. *)
Record parsedXML := { Errors_Error : string; IP : string }.

(** The two decoders of the standard library, as functions of their
    input: [json.Unmarshal(data, &extraSettings)] and
    [xml.NewDecoder(response.Body).Decode(&parsedXML)]. *)
Class Codec := {
  json_Unmarshal : string → result extraSettings;
  xml_Decode : string → result parsedXML;
}.

Section provider.
Context `{!Repo} `{!Codec}.

Definition isValid (p : Provider) : option error :=
  if negb (NamecheapPassword (matcher p) (password p))
  then Some (Sentinel ErrMalformedPassword)
  else None.

(** [New] returns [(p *Provider, err error)]; [None] is the nil
    pointer. *)
Definition New (data : string) (domain host : string)
    (ipVersion : IPVersion) (matcher : Matcher)
  : option Provider * option error :=
  if bool_decide (ipVersion = IP6) then (None, Some (Sentinel ErrIPv6NotSupported))
  else
    match json_Unmarshal data with
    | failed err => (None, Some err)
    | ok extraSettings =>
        let p := {| domain := domain;
                    host := host;
                    ipVersion := ipVersion;
                    password := Password extraSettings;
                    useProviderIP := UseProviderIP extraSettings;
                    matcher := matcher |} in
        match isValid p with
        | Some err => (None, Some err)
        | None => (Some p, None)
        end
    end.

Definition Domain (p : Provider) : string := domain p.
Definition Host (p : Provider) : string := host p.
Definition IPVersion_ (p : Provider) : IPVersion := ipVersion p.
Definition Proxied (p : Provider) : bool := false.

Definition setHeaders (request : http.Request) : http.Request :=
  headers.SetAccept (headers.SetUserAgent request) "application/xml".

(** Lines 103-115 of [Update]: the query values. *)
Definition Update_values (p : Provider) (ip : net.IP) : url.Values :=
  let values : url.Values := ∅ in
  let values := url.Set_ "host" (host p) values in
  let values := url.Set_ "domain" (domain p) values in
  let values := url.Set_ "password" (password p) values in
  if negb (useProviderIP p)
  then url.Set_ "ip" (net.String ip) values
  else values.

Definition Update_url (p : Provider) (ip : net.IP) : url.URL :=
  {| url.Scheme := "https";
     url.Host := "dynamicdns.park-your-domain.com";
     url.Path := "/update";
     url.RawQuery := url.Encode (Update_values p ip) |}.

(** Lines 129-166 of [Update]: what is made of the response. *)
Definition Update_response (ip : net.IP) (response : http.Response)
  : net.IP * option error :=
  if negb (http.StatusCode response =? http.StatusOK) then
    (None, Some (Wrapf ErrBadHTTPStatus
                   (gostr.itoa (http.StatusCode response) ++ ": "
                      ++ BodyToSingleLine (http.ResponseBody response))))
  else
    match xml_Decode (http.ResponseBody response) with
    | failed err => (None, Some (Wrapf ErrUnmarshalResponse (Error err)))
    | ok parsedXML =>
        if negb (String.eqb (Errors_Error parsedXML) "") then
          (None, Some (Wrapf ErrUnsuccessfulResponse (Errors_Error parsedXML)))
        else if String.eqb (IP parsedXML) "" then
          (* If XML has not IP address, just return the IP we sent. *)
          (ip, None)
        else
          let newIP := net.ParseIP (IP parsedXML) in
          match newIP with
          | None => (None, Some (Wrapf ErrIPReceivedMalformed (IP parsedXML)))
          | Some _ =>
              if negb (net.is_nil ip) && negb (net.Equal ip newIP) then
                (None, Some (Wrapf ErrIPReceivedMismatch (net.String newIP)))
              else (newIP, None)
          end
    end.

(** The request [client.Do] receives (lines 117-123) when the context
    is [c]. *)
Definition Update_request (p : Provider) (c : http.ctx) (ip : net.IP)
  : http.Request :=
  setHeaders
    {| http.Method := http.MethodGet;
       http.URL := url.String (Update_url p ip);
       http.Body := None;
       http.Headers := ∅;
       http.Ctx := c |}.

Definition Update (p : Provider) (ctx : http.Context) (client : http.Client)
    (ip : net.IP) : outcome (net.IP * option error) :=
  match http.NewRequestWithContext ctx http.MethodGet
          (url.String (Update_url p ip)) None with
  | failed err => Returned (None, Some err)
  | ok request =>
      let request := setHeaders request in
      match http.Do client request with
      | failed err => Returned (None, Some err)
      | ok response => Returned (Update_response ip response)
      end
  end.

End provider.

End namecheap.

(** ** Package [dondominio] *)

Module dondominio.
Import ipversion.

Record Provider := {
  domain : string;
  host : string;
  ipVersion : IPVersion;
  username : string;
  password : string;
  name : string;
}.

(** The anonymous struct [extraSettings] of [New]. *)
Record extraSettings := { Username : string; Password : string; Name : string }.

(** An element of [responseData.ResponseData.GlueRecords]. *)
Record glueRecord := { IPv4 : string; IPv6 : string }.

(** The anonymous struct [responseData] of [Update]; [GlueRecords] is
    the field [ResponseData.GlueRecords], a slice (nil and empty are
    both the empty list: the code only indexes it). *)
Record responseData := {
  Success : bool;
  ErrorCode : Z;
  ErrorCodeMessage : string;
  GlueRecords : list glueRecord;
}.

(** The decoders of the standard library, as functions of their input:
    [json.Unmarshal(data, &extraSettings)] and
    [json.NewDecoder(response.Body).Decode(&responseData)]. *)
Class Codec := {
  json_Unmarshal : string → result extraSettings;
  json_Decode : string → result responseData;
}.

Section provider.
Context `{!Repo} `{!Codec}.

Definition isValid (p : Provider) : option error :=
  if (String.length (username p) =? 0)%nat then Some (Sentinel ErrEmptyUsername)
  else if (String.length (password p) =? 0)%nat then Some (Sentinel ErrEmptyPassword)
  else if (String.length (name p) =? 0)%nat then Some (Sentinel ErrEmptyName)
  else if negb (String.eqb (host p) "@") then Some (Sentinel ErrHostOnlyAt)
  else None.

Definition New (data : string) (domain host : string) (ipVersion : IPVersion)
  : option Provider * option error :=
  match json_Unmarshal data with
  | failed err => (None, Some err)
  | ok extraSettings =>
      let host := if (String.length host =? 0)%nat then "@" (* default *) else host in
      let p := {| domain := domain;
                  host := host;
                  ipVersion := ipVersion;
                  username := Username extraSettings;
                  password := Password extraSettings;
                  name := Name extraSettings |} in
      match isValid p with
      | Some err => (None, Some err)
      | None => (Some p, None)
      end
  end.

Definition Domain (p : Provider) : string := domain p.
Definition Host (p : Provider) : string := host p.
Definition IPVersion_ (p : Provider) : IPVersion := ipVersion p.
Definition Proxied (p : Provider) : bool := false.

Definition setHeaders (request : http.Request) : http.Request :=
  headers.SetAccept
    (headers.SetContentType (headers.SetUserAgent request)
       "application/x-www-form-urlencoded")
    "application/json".

(** Line 119 of [Update]: [isIPv4 := ip.To4() != nil]. *)
Definition isIPv4 (ip : net.IP) : bool := negb (net.is_nil (net.To4 ip)).

(** Lines 114-124 of [Update]: the form values. *)
Definition Update_values (p : Provider) (ip : net.IP) : url.Values :=
  let values : url.Values := ∅ in
  let values := url.Set_ "apiuser" (username p) values in
  let values := url.Set_ "apipasswd" (password p) values in
  let values := url.Set_ "domain" (domain p) values in
  let values := url.Set_ "name" (name p) values in
  if isIPv4 ip
  then url.Set_ "ipv4" (net.String ip) values
  else url.Set_ "ipv6" (net.String ip) values.

Definition Update_url : url.URL :=
  {| url.Scheme := "https";
     url.Host := "simple-api.dondominio.net";
     url.Path := "";
     url.RawQuery := "" |}.

(** Lines 140-175 of [Update]: what is made of the response. The
    index expression [GlueRecords[0]] panics on an empty slice. *)
Definition Update_response (ip : net.IP) (response : http.Response)
  : outcome (net.IP * option error) :=
  if negb (http.StatusCode response =? http.StatusOK) then
    Returned
      (None, Some (Wrapf ErrBadHTTPStatus
                     (gostr.itoa (http.StatusCode response) ++ ": "
                        ++ BodyToSingleLine (http.ResponseBody response))))
  else
    match json_Decode (http.ResponseBody response) with
    | failed err => Returned (None, Some (Wrapf ErrUnmarshalResponse (Error err)))
    | ok responseData =>
        if negb (Success responseData) then
          Returned
            (None, Some (Wrapf ErrUnsuccessfulResponse
                           (ErrorCodeMessage responseData ++ " (error code "
                              ++ gostr.itoa (ErrorCode responseData) ++ ")")))
        else
          match GlueRecords responseData !! 0%nat with
          | None => Panicked "runtime error: index out of range [0] with length 0"
          | Some first =>
              let ipString := IPv4 first in
              let ipString := if negb (isIPv4 ip) then IPv6 first else ipString in
              let newIP := net.ParseIP ipString in
              match newIP with
              | None => Returned (None, Some (Wrapf ErrIPReceivedMalformed ipString))
              | Some _ =>
                  if negb (net.Equal ip newIP) then
                    Returned
                      (None, Some (Wrapf ErrIPReceivedMismatch (net.String newIP)))
                  else Returned (newIP, None)
              end
          end
    end.

(** The request [client.Do] receives (lines 125-134) when the context
    is [c]. *)
Definition Update_request (p : Provider) (c : http.ctx) (ip : net.IP)
  : http.Request :=
  setHeaders
    {| http.Method := http.MethodPost;
       http.URL := url.String Update_url;
       http.Body := Some (url.Encode (Update_values p ip));
       http.Headers := ∅;
       http.Ctx := c |}.

Definition Update (p : Provider) (ctx : http.Context) (client : http.Client)
    (ip : net.IP) : outcome (net.IP * option error) :=
  let encodedValues := url.Encode (Update_values p ip) in
  match http.NewRequestWithContext ctx http.MethodPost
          (url.String Update_url) (Some encodedValues) with
  | failed err => Returned (None, Some err)
  | ok request =>
      let request := setHeaders request in
      match http.Do client request with
      | failed err => Returned (None, Some err)
      | ok response => Update_response ip response
      end
  end.


(** Lines 169-175 of [Update] on their own: the received text is
    parsed and compared with the requested address. *)
Definition received (ip : net.IP) (ipString : string) : net.IP * option error :=
  match net.ParseIP ipString with
  | None => (None, Some (Wrapf ErrIPReceivedMalformed ipString))
  | Some b =>
      if net.Equal ip (Some b) then (Some b, None)
      else (None, Some (Wrapf ErrIPReceivedMismatch (net.String (Some b))))
  end.

End provider.

End dondominio.

(** ** Package [health]: the run loop of the liveness server

    [Run] is followed statement by statement as a transition system. Two
    goroutines move: the one that runs [Run] (the loop of lines 45-52 and
    the deferred [close(done)] of line 27) and the one started on line 34,
    which waits for the context and shuts the server down. What the
    outside decides is an event: the cancellation of the context, and the
    error with which [server.ListenAndServe] or [server.Shutdown]
    returns. *)

Module health.

Record Server := { address : string }.

Inductive level := Info | Warn | Error_.

(** Where the goroutine of [Run] stands. *)
Inductive run_pc :=
| LoopHead                     (* line 45, before [ctx.Err() == nil] *)
| Serving                      (* line 47, inside [ListenAndServe] *)
| Exited (err : option error)  (* line 48, [ListenAndServe] returned [err] *)
| Stopped.                     (* [Run] returned, [close(done)] ran *)

(** Where the goroutine of lines 34-44 stands. *)
Inductive watcher_pc :=
| Waiting        (* line 35, blocked on [<-ctx.Done()] *)
| ShuttingDown   (* line 41, inside [server.Shutdown] *)
| ShutDown.      (* the goroutine ended *)

Record state := {
  run : run_pc;
  watcher : watcher_pc;
  canceled : bool;        (* [ctx.Err() != nil] *)
  inShutdown : bool;      (* [server.Shutdown] was called *)
  closes : nat;           (* how many times [close(done)] ran *)
  listens : nat;          (* how many times [ListenAndServe] was called *)
  log : list (level * string);
}.

Inductive event :=
| Cancel                              (* the context is canceled *)
| RunStep                             (* [Run] executes its next statement *)
| ListenerExit (err : option error)   (* [ListenAndServe] returns [err] *)
| WatcherStep (err : option error).   (* the watcher moves; [err] is what
                                         [Shutdown] returns *)

Definition is_nil_error (err : option error) : bool :=
  match err with None => true | Some _ => false end.

Section run.
Context `{!Repo}.
Variable s : Server.

Definition error_text (err : option error) : string :=
  match err with Some e => Error e | None => "" end.

(** The state when [Run] reaches its loop for the first time:
    [close(done)] is deferred, the server is built, the watcher is
    started. [c] says whether the context was canceled already. *)
Definition start (c : bool) : state :=
  {| run := LoopHead; watcher := Waiting; canceled := c; inShutdown := false;
     closes := 0; listens := 0; log := [] |}.

Definition add_log (st : state) (entries : list (level * string)) : state :=
  {| run := run st; watcher := watcher st; canceled := canceled st;
     inShutdown := inShutdown st; closes := closes st; listens := listens st;
     log := (log st ++ entries)%list |}.

Definition set_run (st : state) (pc : run_pc) : state :=
  {| run := pc; watcher := watcher st; canceled := canceled st;
     inShutdown := inShutdown st; closes := closes st; listens := listens st;
     log := log st |}.

(** One statement of the goroutine of [Run]; [None] when it is
    blocked or has returned. *)
Definition run_step (st : state) : option state :=
  match run st with
  | LoopHead =>
      if negb (canceled st) then
        (* lines 46-47 *)
        let st := add_log st [(Info, "listening on " ++ address s)] in
        Some {| run := Serving; watcher := watcher st; canceled := canceled st;
                inShutdown := inShutdown st; closes := closes st;
                listens := S (listens st); log := log st |}
      else
        (* the loop ends, [Run] returns, the deferred [close(done)] runs *)
        Some {| run := Stopped; watcher := watcher st; canceled := canceled st;
                inShutdown := inShutdown st; closes := S (closes st);
                listens := listens st; log := log st |}
  | Exited err =>
      (* lines 48-51 *)
      if negb (is_nil_error err) && negb (canceled st) then
        Some (set_run
                (add_log st [(Error_, error_text err); (Info, "restarting")])
                LoopHead)
      else Some (set_run st LoopHead)
  | Serving => None
  | Stopped => None
  end.

(** One move of the watcher; [None] while the context is live or when
    the goroutine has ended. *)
Definition watcher_step (st : state) (err : option error) : option state :=
  match watcher st with
  | Waiting =>
      if canceled st then
        let st := add_log st [(Warn, "shutting down (context canceled)")] in
        Some {| run := run st; watcher := ShuttingDown; canceled := canceled st;
                inShutdown := inShutdown st; closes := closes st;
                listens := listens st; log := log st |}
      else None
  | ShuttingDown =>
      let st :=
        if negb (is_nil_error err)
        then add_log st [(Error_, "failed shutting down: " ++ error_text err)]
        else st in
      let st := add_log st [(Warn, "shut down")] in
      Some {| run := run st; watcher := ShutDown; canceled := canceled st;
              inShutdown := true; closes := closes st;
              listens := listens st; log := log st |}
  | ShutDown => None
  end.

Definition step (st : state) (ev : event) : option state :=
  match ev with
  | Cancel =>
      Some {| run := run st; watcher := watcher st; canceled := true;
              inShutdown := inShutdown st; closes := closes st;
              listens := listens st; log := log st |}
  | RunStep => run_step st
  | ListenerExit err =>
      match run st with
      | Serving => Some (set_run st (Exited err))
      | _ => None
      end
  | WatcherStep err => watcher_step st err
  end.

(** A sequence of events from a state; [None] when one of them cannot
    happen where it stands. *)
Fixpoint exec (st : state) (evs : list event) : option state :=
  match evs with
  | [] => Some st
  | ev :: evs' =>
      match step st ev with
      | Some st' => exec st' evs'
      | None => None
      end
  end.

(** [Run(ctx, done)] under a schedule: the events from the start. *)
Definition Run (c : bool) (evs : list event) : option state :=
  exec (start c) evs.

End run.

(** The invariant of the run loop: [close(done)] has not run while [Run]
    has not returned, and when [Run] has returned it ran once and the
    context is canceled. *)
Definition done_discipline (st : state) : Prop :=
  (closes st = 0%nat ∧ run st ≠ Stopped)
  ∨ (closes st = 1%nat ∧ run st = Stopped ∧ canceled st = true).

(** The invariant of the watcher: it leaves its wait only when the
    context is canceled, and [server.Shutdown] has been called exactly
    when it has ended. *)
Definition watcher_discipline (st : state) : Prop :=
  match watcher st with
  | Waiting => inShutdown st = false
  | ShuttingDown => canceled st = true ∧ inShutdown st = false
  | ShutDown => canceled st = true ∧ inShutdown st = true
  end.

(** The events of one crash of the listener with the error [err],
    followed by the two statements of [Run] that lead back into
    [ListenAndServe]. *)
Definition crash (err : error) : list event :=
  [ListenerExit (Some err); RunStep; RunStep].

End health.

(** ** Concrete inputs

    A sample instance of the parameters, and clients with canned
    answers, on which the definitions above are run. *)

Module sample.
Import ipversion.

(** JSON texts are written with ['] for the double quote. *)
Fixpoint quoted (s : string) : string :=
  match s with
  | EmptyString => EmptyString
  | String c s' => String (if Ascii.eqb c "'" then "034"%char else c) (quoted s')
  end.

Fixpoint one_line (s : string) : string :=
  match s with
  | EmptyString => EmptyString
  | String c s' =>
      if Ascii.eqb c "010" || Ascii.eqb c "013" then one_line s'
      else String c (one_line s')
  end.

Definition repo : Repo :=
  {| sentinel_text := λ s,
       match s with
       | ErrIPv6NotSupported => "IPv6 is not supported by this provider"
       | ErrMalformedPassword => "malformed password"
       | ErrEmptyUsername => "empty username"
       | ErrEmptyPassword => "empty password"
       | ErrEmptyName => "empty name"
       | ErrHostOnlyAt => "host can only be @"
       | ErrBadHTTPStatus => "bad HTTP status"
       | ErrUnmarshalResponse => "cannot unmarshal update response"
       | ErrUnsuccessfulResponse => "unsuccessful response"
       | ErrIPReceivedMalformed => "malformed IP address received"
       | ErrIPReceivedMismatch => "mismatching IP address received"
       end;
     userAgent := "DDNS-Updater";
     BodyToSingleLine := one_line |}.

(** A decoder given by the table of the texts it accepts. *)
Fixpoint decode_table {A : Type} (table : list (string * A)) (input : string)
  : result A :=
  match table with
  | [] => failed (Foreign "unexpected end of input")
  | (text, a) :: table' =>
      if String.eqb text input then ok a else decode_table table' input
  end.

Definition xml_no_ip : string :=
  "<interface-response><ErrCount>0</ErrCount></interface-response>".
Definition xml_ip_5678 : string :=
  "<interface-response><IP>5.6.7.8</IP><ErrCount>0</ErrCount></interface-response>".
Definition xml_ip_1234 : string :=
  "<interface-response><IP>1.2.3.4</IP><ErrCount>0</ErrCount></interface-response>".
Definition xml_ip_garbled : string :=
  "<interface-response><IP>1.2.3</IP><ErrCount>0</ErrCount></interface-response>".

Definition namecheap_settings : string :=
  quoted "{'password':'0123456789abcdef0123456789abcdef'}".

Definition namecheap_codec : namecheap.Codec :=
  {| namecheap.json_Unmarshal :=
       decode_table
         [(namecheap_settings,
           {| namecheap.Password := "0123456789abcdef0123456789abcdef";
              namecheap.UseProviderIP := false |})];
     namecheap.xml_Decode :=
       decode_table
         [(xml_no_ip, {| namecheap.Errors_Error := ""; namecheap.IP := "" |});
          (xml_ip_5678, {| namecheap.Errors_Error := ""; namecheap.IP := "5.6.7.8" |});
          (xml_ip_1234, {| namecheap.Errors_Error := ""; namecheap.IP := "1.2.3.4" |});
          (xml_ip_garbled, {| namecheap.Errors_Error := ""; namecheap.IP := "1.2.3" |})] |}.

Definition json_no_glue : string :=
  quoted "{'success':true,'responseData':{'gluerecords':[]}}".
Definition json_glue_1234 : string :=
  quoted "{'success':true,'responseData':{'gluerecords':[{'ipv4':'1.2.3.4','ipv6':''}]}}".

Definition dondominio_settings : string :=
  quoted "{'username':'user','password':'secret','name':'home'}".
Definition dondominio_settings_blank : string :=
  quoted "{'username':'','password':'','name':''}".

Definition dondominio_codec : dondominio.Codec :=
  {| dondominio.json_Unmarshal :=
       decode_table
         [(dondominio_settings,
           {| dondominio.Username := "user"; dondominio.Password := "secret";
              dondominio.Name := "home" |});
          (dondominio_settings_blank,
           {| dondominio.Username := ""; dondominio.Password := "";
              dondominio.Name := "" |})];
     dondominio.json_Decode :=
       decode_table
         [(json_no_glue,
           {| dondominio.Success := true; dondominio.ErrorCode := 0;
              dondominio.ErrorCodeMessage := ""; dondominio.GlueRecords := [] |});
          (json_glue_1234,
           {| dondominio.Success := true; dondominio.ErrorCode := 0;
              dondominio.ErrorCodeMessage := "";
              dondominio.GlueRecords :=
                [{| dondominio.IPv4 := "1.2.3.4"; dondominio.IPv6 := "" |}] |})] |}.

(** A client that answers every request with the same response. *)
Definition answering (status : Z) (body : string) : http.Client :=
  {| http.Do := λ _, ok {| http.StatusCode := status; http.ResponseBody := body |} |}.

Definition background : http.ctx := {| http.ctx_Err := None |}.

Definition any_password : namecheap.Matcher :=
  {| namecheap.NamecheapPassword := λ _, true |}.

Definition namecheap_provider : namecheap.Provider :=
  {| namecheap.domain := "example.com"; namecheap.host := "@";
     namecheap.ipVersion := IP4;
     namecheap.password := "0123456789abcdef0123456789abcdef";
     namecheap.useProviderIP := true;
     namecheap.matcher := any_password |}.

Definition dondominio_provider (v : IPVersion) : dondominio.Provider :=
  {| dondominio.domain := "example.com"; dondominio.host := "@";
     dondominio.ipVersion := v;
     dondominio.username := "user"; dondominio.password := "secret";
     dondominio.name := "home" |}.

Definition ip_1234 : net.IP := Some [x01; x02; x03; x04].
Definition ip_2001_db8_1 : net.IP :=
  Some [x20; x01; x0d; xb8; x00; x00; x00; x00; x00; x00; x00; x00; x00; x00; x00; x01].

Definition server : health.Server := {| health.address := "127.0.0.1:9999" |}.

(** A schedule of the health server: the listener crashes once, then
    the context is canceled and the watcher shuts the server down. *)
Definition crash_then_cancel : list health.event :=
  [ health.RunStep;
    health.ListenerExit (Some (Foreign "accept tcp: too many open files"));
    health.RunStep; health.RunStep;
    health.Cancel; health.WatcherStep None;
    health.ListenerExit (Some (Foreign "http: Server closed"));
    health.WatcherStep None;
    health.RunStep; health.RunStep ].

End sample.

(** ** Reading a form-encoded text *)

Module form.

(** [strings.Split(s, sep)] for a separator of one character. *)
Fixpoint split (sep : ascii) (s : string) : list string :=
  match s with
  | EmptyString => [EmptyString]
  | String ch s' =>
      if Ascii.eqb ch sep then EmptyString :: split sep s'
      else
        match split sep s' with
        | x :: xs => String ch x :: xs
        | [] => [String ch EmptyString]
        end
  end.

(** [strings.IndexByte(s, ch) >= 0] *)
Fixpoint contains (ch : ascii) (s : string) : bool :=
  match s with
  | EmptyString => false
  | String ch' s' => Ascii.eqb ch' ch || contains ch s'
  end.

(** The fields of a form-encoded text: the pieces between [&], each cut
    at [=]. *)
Definition fields (s : string) : list (list string) :=
  map (split "=") (split "&" s).

End form.

(** The five error values [Update] wraps. *)
Definition update_sentinel (s : sentinel) : Prop :=
  s = ErrBadHTTPStatus ∨ s = ErrUnmarshalResponse ∨ s = ErrUnsuccessfulResponse
  ∨ s = ErrIPReceivedMalformed ∨ s = ErrIPReceivedMismatch.

(** Where an error that is not one of the five comes from: the request
    could not be built or the client failed. *)
Definition transport_error (ctx : http.Context) (client : http.Client)
    (request : http.ctx → http.Request) (err : error) : Prop :=
  (ctx = None ∧ err = Foreign "net/http: nil Context")
  ∨ (∃ c, ctx = Some c ∧ http.Do client (request c) = failed err).

(** The text [ip.String()] gives for the four bytes of an IPv4
    address. *)
Definition dotted (a b c d : byte) : string :=
  net.ubtoa a +:+ "." +:+ net.ubtoa b +:+ "." +:+ net.ubtoa c +:+ "." +:+ net.ubtoa d.

(** More inputs: a vendor that reports a failure, a client that cannot
    reach the vendor. *)

Module sample_more.

Definition xml_error_and_ip : string :=
  "<interface-response><IP>1.2.3.4</IP><ErrCount>1</ErrCount><errors><errors.Err1>Passwords do not match</errors.Err1></errors></interface-response>".

Definition namecheap_codec : namecheap.Codec :=
  {| namecheap.json_Unmarshal :=
       sample.decode_table
         [(sample.namecheap_settings,
           {| namecheap.Password := "0123456789abcdef0123456789abcdef";
              namecheap.UseProviderIP := false |})];
     namecheap.xml_Decode :=
       sample.decode_table
         [(xml_error_and_ip,
           {| namecheap.Errors_Error := "Passwords do not match";
              namecheap.IP := "1.2.3.4" |});
          (sample.xml_ip_1234,
           {| namecheap.Errors_Error := ""; namecheap.IP := "1.2.3.4" |});
          (sample.xml_ip_5678,
           {| namecheap.Errors_Error := ""; namecheap.IP := "5.6.7.8" |})] |}.

Definition json_bad_auth : string :=
  sample.quoted "{'success':false,'errorCode':5,'errorCodeMsg':'bad auth'}".

Definition json_glue_v6 : string :=
  sample.quoted
    "{'success':true,'responseData':{'gluerecords':[{'ipv4':'','ipv6':'2001:db8::1'}]}}".

Definition dondominio_codec : dondominio.Codec :=
  {| dondominio.json_Unmarshal :=
       sample.decode_table
         [(sample.dondominio_settings,
           {| dondominio.Username := "user"; dondominio.Password := "secret";
              dondominio.Name := "home" |})];
     dondominio.json_Decode :=
       sample.decode_table
         [(json_bad_auth,
           {| dondominio.Success := false; dondominio.ErrorCode := 5;
              dondominio.ErrorCodeMessage := "bad auth";
              dondominio.GlueRecords := [] |});
          (sample.json_glue_1234,
           {| dondominio.Success := true; dondominio.ErrorCode := 0;
              dondominio.ErrorCodeMessage := "";
              dondominio.GlueRecords :=
                [{| dondominio.IPv4 := "1.2.3.4"; dondominio.IPv6 := "" |}] |});
          (json_glue_v6,
           {| dondominio.Success := true; dondominio.ErrorCode := 0;
              dondominio.ErrorCodeMessage := "";
              dondominio.GlueRecords :=
                [{| dondominio.IPv4 := ""; dondominio.IPv6 := "2001:db8::1" |}] |})] |}.

(** A client whose every call fails with the same error. *)
Definition refusing (err : error) : http.Client :=
  {| http.Do := λ _, failed err |}.

(** A matcher that accepts the passwords of 32 characters. *)
Definition length_32 : namecheap.Matcher :=
  {| namecheap.NamecheapPassword := λ s, (String.length s =? 32)%nat |}.

(** A provider that sends the address it is given. *)
Definition namecheap_sending : namecheap.Provider :=
  {| namecheap.domain := "example.com"; namecheap.host := "www";
     namecheap.ipVersion := ipversion.IP4;
     namecheap.password := "0123456789abcdef0123456789abcdef";
     namecheap.useProviderIP := false;
     namecheap.matcher := length_32 |}.

End sample_more.

(** * Properties *)

(** ** Shared facts *)

Lemma ParseIP_empty : net.ParseIP "" = None.
Proof. reflexivity. Qed.

Example ParseIP_dotted : net.ParseIP "1.2.3.4" = net.IPv4 x01 x02 x03 x04.
Proof. reflexivity. Qed.

Example ParseIP_three_fields : net.ParseIP "1.2.3" = None.
Proof. reflexivity. Qed.

Example ParseIP_colons :
  net.ParseIP "2001:db8::1" = sample.ip_2001_db8_1
  ∧ net.String sample.ip_2001_db8_1 = "2001:db8::1".
Proof. split; reflexivity. Qed.

Example To4_of_mapped :
  net.To4 (net.IPv4 x01 x02 x03 x04) = sample.ip_1234
  ∧ net.To4 sample.ip_2001_db8_1 = None
  ∧ net.To4 None = None.
Proof. repeat split; reflexivity. Qed.

Example Equal_across_forms :
  net.Equal sample.ip_1234 (net.ParseIP "1.2.3.4") = true
  ∧ net.Equal None (net.ParseIP "1.2.3.4") = false.
Proof. split; reflexivity. Qed.

Example String_of_nil : net.String None = "<nil>".
Proof. reflexivity. Qed.

(** ** The Namecheap provider *)

Section namecheap_facts.
Context `{!Repo} `{!namecheap.Codec}.
Import namecheap.

(** With a context that is not nil, [Update] hands the request to the
    client and, when the client answers, reads the response. *)
Lemma namecheap_Update_answered p c client ip response :
  http.Do client (Update_request p c ip) = ok response →
  Update p (Some c) client ip = Returned (Update_response ip response).
Proof.
  intros Hdo. unfold Update. cbn [http.NewRequestWithContext].
  change (setHeaders _) with (Update_request p c ip).
  by rewrite Hdo.
Qed.

(** A 200 response that decodes and carries no error text, with an
    empty IP field. *)
Lemma namecheap_response_without_IP ip response parsed :
  http.StatusCode response = 200 →
  xml_Decode (http.ResponseBody response) = ok parsed →
  Errors_Error parsed = "" →
  IP parsed = "" →
  Update_response ip response = (ip, None).
Proof.
  intros Hstatus Hdecode Herr Hip. unfold Update_response.
  rewrite Hstatus, Hdecode, Herr, Hip. reflexivity.
Qed.

(** A 200 response that decodes and carries no error text, with an IP
    field that is not empty. *)
Lemma namecheap_response_with_IP ip response parsed :
  http.StatusCode response = 200 →
  xml_Decode (http.ResponseBody response) = ok parsed →
  Errors_Error parsed = "" →
  IP parsed ≠ "" →
  Update_response ip response =
    match net.ParseIP (IP parsed) with
    | None => (None, Some (Wrapf ErrIPReceivedMalformed (IP parsed)))
    | Some b =>
        if negb (net.is_nil ip) && negb (net.Equal ip (Some b))
        then (None, Some (Wrapf ErrIPReceivedMismatch (net.String (Some b))))
        else (Some b, None)
    end.
Proof.
  intros Hstatus Hdecode Herr Hip. unfold Update_response.
  rewrite Hstatus, Hdecode, Herr. cbn.
  destruct (String.eqb (IP parsed) "") eqn:E.
  - apply String.eqb_eq in E. contradiction.
  - by destruct (net.ParseIP (IP parsed)).
Qed.

(** Whatever the response, requesting an address that is not nil gives
    a confirmed IP or an error, never both and never neither. *)
Lemma namecheap_Update_response_contract ip response :
  ip ≠ None → confirmed_or_failed (Update_response ip response).
Proof.
  intros Hip. unfold Update_response, confirmed_or_failed.
  destruct (negb (http.StatusCode response =? http.StatusOK)); [right; done |].
  destruct (xml_Decode (http.ResponseBody response)) as [parsed | err]; [| right; done].
  destruct (negb (String.eqb (Errors_Error parsed) "")); [right; done |].
  destruct (String.eqb (IP parsed) ""); [left; done |].
  destruct (net.ParseIP (IP parsed)) as [b |]; [| right; done].
  destruct (negb (net.is_nil ip) && negb (net.Equal ip (Some b))); [right | left]; done.
Qed.

Lemma namecheap_Update_contract p ctx client ip :
  ip ≠ None →
  ∃ r, Update p ctx client ip = Returned r ∧ confirmed_or_failed r.
Proof.
  intros Hip. unfold Update.
  destruct ctx as [c |]; cbn [http.NewRequestWithContext].
  - destruct (http.Do client _) as [response | err].
    + eexists; split; [done |]. by apply namecheap_Update_response_contract.
    + eexists; split; [done |]. right; done.
  - eexists; split; [done |]. right; done.
Qed.

End namecheap_facts.

Section namecheap_claims.
Context `{!Repo} `{!namecheap.Codec}.
Import namecheap ipversion.

(** C1. The contract of [Update] is that it returns a confirmed IP that
    is not nil with a nil error, or a nil IP with an error that is not
    nil. The Namecheap provider breaks it: when the requested IP is nil
    and the client answers 200 with a body that decodes to no error
    text and an empty IP field, [Update] returns the nil IP together
    with the nil error. *)
Theorem namecheap_Update_nil_IP_and_nil_error p c client response parsed :
  http.Do client (Update_request p c None) = ok response →
  http.StatusCode response = 200 →
  xml_Decode (http.ResponseBody response) = ok parsed →
  Errors_Error parsed = "" →
  IP parsed = "" →
  Update p (Some c) client None = Returned (None, None)
  ∧ ¬ confirmed_or_failed (None, None).
Proof.
  intros Hdo Hstatus Hdecode Herr Hip. split.
  - rewrite (namecheap_Update_answered _ _ _ _ _ Hdo).
    by rewrite (namecheap_response_without_IP _ _ _ Hstatus Hdecode Herr Hip).
  - unfold confirmed_or_failed. simpl. intros [[Hn _] | [_ Hn]]; by apply Hn.
Qed.

(** C3. [New] with the IP version [IP6] returns the error
    [ErrIPv6NotSupported] and no provider, whatever the raw settings,
    the domain, the host and the matcher are, and whatever the decoder
    of the settings would have answered. *)
Theorem namecheap_New_IP6_not_supported data domain host matcher :
  New data domain host IP6 matcher = (None, Some (Sentinel ErrIPv6NotSupported)).
Proof. reflexivity. Qed.

(** C5. When the client answers 200 and the body decodes to an empty
    error field and an empty IP field, [Update] returns the requested
    IP as it was given, with a nil error. *)
Theorem namecheap_Update_empty_IP_field p c client ip response parsed :
  http.Do client (Update_request p c ip) = ok response →
  http.StatusCode response = 200 →
  xml_Decode (http.ResponseBody response) = ok parsed →
  Errors_Error parsed = "" →
  IP parsed = "" →
  Update p (Some c) client ip = Returned (ip, None).
Proof.
  intros Hdo Hstatus Hdecode Herr Hip.
  rewrite (namecheap_Update_answered _ _ _ _ _ Hdo).
  f_equal. by apply namecheap_response_without_IP with parsed.
Qed.

(** C6, as amended. For a requested IP that is not nil and a 200
    response with no error text: when the IP field parses to an address
    that is not equal to the requested one, [Update] returns an
    [ErrIPReceivedMismatch] error and a nil IP; when the IP field is
    not empty and does not parse, [Update] returns an
    [ErrIPReceivedMalformed] error and a nil IP. *)
Theorem namecheap_Update_received_IP_checked p c client ip response parsed :
  ip ≠ None →
  http.Do client (Update_request p c ip) = ok response →
  http.StatusCode response = 200 →
  xml_Decode (http.ResponseBody response) = ok parsed →
  Errors_Error parsed = "" →
  (∀ b, net.ParseIP (IP parsed) = Some b →
        net.Equal ip (Some b) = false →
        Update p (Some c) client ip =
          Returned (None, Some (Wrapf ErrIPReceivedMismatch (net.String (Some b)))))
  ∧ (IP parsed ≠ "" →
     net.ParseIP (IP parsed) = None →
     Update p (Some c) client ip =
       Returned (None, Some (Wrapf ErrIPReceivedMalformed (IP parsed)))).
Proof.
  intros Hnil Hdo Hstatus Hdecode Herr.
  rewrite (namecheap_Update_answered _ _ _ _ _ Hdo).
  split.
  - intros b Hparse Hneq.
    assert (Hfield : IP parsed ≠ "").
    { intros E. rewrite E in Hparse. discriminate. }
    rewrite (namecheap_response_with_IP _ _ _ Hstatus Hdecode Herr Hfield).
    rewrite Hparse, Hneq. destruct ip; [reflexivity | contradiction].
  - intros Hfield Hparse.
    rewrite (namecheap_response_with_IP _ _ _ Hstatus Hdecode Herr Hfield).
    by rewrite Hparse.
Qed.

End namecheap_claims.

(** The inputs at which the theorems above are used. *)

Lemma namecheap_Update_nil_IP_and_nil_error_sample :
  @namecheap.Update sample.repo sample.namecheap_codec sample.namecheap_provider
    (Some sample.background) (sample.answering 200 sample.xml_no_ip) None
  = Returned (None, None)
  ∧ ¬ confirmed_or_failed (None, None).
Proof.
  apply (@namecheap_Update_nil_IP_and_nil_error sample.repo sample.namecheap_codec
           sample.namecheap_provider sample.background
           (sample.answering 200 sample.xml_no_ip)
           {| http.StatusCode := 200; http.ResponseBody := sample.xml_no_ip |}
           {| namecheap.Errors_Error := ""; namecheap.IP := "" |});
    reflexivity.
Defined.

Lemma namecheap_Update_empty_IP_field_sample :
  @namecheap.Update sample.repo sample.namecheap_codec sample.namecheap_provider
    (Some sample.background) (sample.answering 200 sample.xml_no_ip) sample.ip_1234
  = Returned (sample.ip_1234, None).
Proof.
  apply (@namecheap_Update_empty_IP_field sample.repo sample.namecheap_codec
           sample.namecheap_provider sample.background
           (sample.answering 200 sample.xml_no_ip) sample.ip_1234
           {| http.StatusCode := 200; http.ResponseBody := sample.xml_no_ip |}
           {| namecheap.Errors_Error := ""; namecheap.IP := "" |});
    reflexivity.
Defined.

(** C6, as stated, fails. The requested IP 1.2.3.4 is not nil, the
    response has status 200 and no error text, and its IP field, the
    empty string, does not parse as an address; [Update] returns the
    requested IP with a nil error, not [ErrIPReceivedMalformed]. *)
Lemma namecheap_empty_IP_field_is_not_malformed :
  sample.ip_1234 ≠ None
  ∧ namecheap.xml_Decode (Codec := sample.namecheap_codec) sample.xml_no_ip
    = ok {| namecheap.Errors_Error := ""; namecheap.IP := "" |}
  ∧ net.ParseIP "" = None
  ∧ @namecheap.Update sample.repo sample.namecheap_codec sample.namecheap_provider
      (Some sample.background) (sample.answering 200 sample.xml_no_ip) sample.ip_1234
    = Returned (sample.ip_1234, None)
  ∧ ¬ (∃ detail,
         @namecheap.Update sample.repo sample.namecheap_codec sample.namecheap_provider
           (Some sample.background) (sample.answering 200 sample.xml_no_ip)
           sample.ip_1234
         = Returned (None, Some (Wrapf ErrIPReceivedMalformed detail))).
Proof.
  repeat split; try reflexivity; try discriminate.
  intros [detail Hd]. vm_compute in Hd. discriminate.
Qed.

Lemma namecheap_Update_received_IP_checked_sample :
  @namecheap.Update sample.repo sample.namecheap_codec sample.namecheap_provider
    (Some sample.background) (sample.answering 200 sample.xml_ip_5678) sample.ip_1234
  = Returned (None, Some (Wrapf ErrIPReceivedMismatch "5.6.7.8"))
  ∧ @namecheap.Update sample.repo sample.namecheap_codec sample.namecheap_provider
      (Some sample.background) (sample.answering 200 sample.xml_ip_garbled)
      sample.ip_1234
    = Returned (None, Some (Wrapf ErrIPReceivedMalformed "1.2.3")).
Proof.
  split.
  - refine (proj1
      (@namecheap_Update_received_IP_checked sample.repo sample.namecheap_codec
         sample.namecheap_provider sample.background
         (sample.answering 200 sample.xml_ip_5678) sample.ip_1234
         {| http.StatusCode := 200; http.ResponseBody := sample.xml_ip_5678 |}
         {| namecheap.Errors_Error := ""; namecheap.IP := "5.6.7.8" |}
         _ _ _ _ _)
      [x00; x00; x00; x00; x00; x00; x00; x00; x00; x00; xff; xff; x05; x06; x07; x08]
      _ _); first [discriminate | reflexivity].
  - refine (proj2
      (@namecheap_Update_received_IP_checked sample.repo sample.namecheap_codec
         sample.namecheap_provider sample.background
         (sample.answering 200 sample.xml_ip_garbled) sample.ip_1234
         {| http.StatusCode := 200; http.ResponseBody := sample.xml_ip_garbled |}
         {| namecheap.Errors_Error := ""; namecheap.IP := "1.2.3" |}
         _ _ _ _ _)
      _ _); first [discriminate | reflexivity].
Defined.

(** ** The DonDominio provider *)

Section dondominio_facts.
Context `{!Repo} `{!dondominio.Codec}.
Import dondominio.

Lemma dondominio_Update_answered p c client ip response :
  http.Do client (Update_request p c ip) = ok response →
  Update p (Some c) client ip = Update_response ip response.
Proof.
  intros Hdo. unfold Update. cbn [http.NewRequestWithContext].
  change (setHeaders _) with (Update_request p c ip).
  by rewrite Hdo.
Qed.

(** The form values: the four fixed fields and one field for the
    address, named after [isIPv4]. *)
Lemma dondominio_values_lookup p ip key :
  Update_values p ip !! key =
    if decide (key = if isIPv4 ip then "ipv4" else "ipv6") then Some [net.String ip]
    else if decide (key = "name") then Some [name p]
    else if decide (key = "domain") then Some [domain p]
    else if decide (key = "apipasswd") then Some [password p]
    else if decide (key = "apiuser") then Some [username p]
    else None.
Proof.
  unfold Update_values, url.Set_.
  destruct (isIPv4 ip);
    repeat (rewrite lookup_insert; case_decide; subst;
            [repeat case_decide; congruence |]);
    rewrite lookup_empty; repeat case_decide; congruence.
Qed.

Lemma dondominio_response_first_glue ip response data first others :
  http.StatusCode response = 200 →
  json_Decode (http.ResponseBody response) = ok data →
  Success data = true →
  GlueRecords data = first :: others →
  Update_response ip response =
    Returned (received ip (if isIPv4 ip then IPv4 first else IPv6 first)).
Proof.
  intros Hstatus Hdecode Hsuccess Hglue. unfold Update_response, received.
  rewrite Hstatus, Hdecode, Hsuccess, Hglue. cbn.
  destruct (isIPv4 ip); cbn;
    match goal with |- context [net.ParseIP ?s] => destruct (net.ParseIP s) as [b |] end;
    try reflexivity;
    destruct (net.Equal ip (Some b)); reflexivity.
Qed.

Lemma received_contract ip ipString : confirmed_or_failed (received ip ipString).
Proof.
  unfold received, confirmed_or_failed.
  destruct (net.ParseIP ipString) as [b |]; [| right; done].
  destruct (net.Equal ip (Some b)); [left | right]; done.
Qed.

(** Whenever the DonDominio [Update] returns, it returns a confirmed IP
    or an error, never both and never neither. *)
Lemma dondominio_Update_contract p ctx client ip r :
  Update p ctx client ip = Returned r → confirmed_or_failed r.
Proof.
  unfold Update. destruct ctx as [c |]; cbn [http.NewRequestWithContext].
  - destruct (http.Do client _) as [response | err].
    + unfold Update_response.
      destruct (negb (http.StatusCode response =? http.StatusOK)).
      { intros [= <-]. right; done. }
      destruct (json_Decode (http.ResponseBody response)) as [data | err].
      2: { intros [= <-]. right; done. }
      destruct (negb (Success data)).
      { intros [= <-]. right; done. }
      destruct (GlueRecords data !! 0%nat) as [first |]; [| discriminate].
      cbn zeta.
      destruct (net.ParseIP _) as [b |].
      2: { intros [= <-]. right; done. }
      destruct (negb (net.Equal ip (Some b))); intros [= <-]; [right | left]; done.
    + intros [= <-]. right; done.
  - intros [= <-]. right; done.
Qed.

End dondominio_facts.

Lemma length_zero_eqb (s : string) : (String.length s =? 0)%nat = String.eqb s "".
Proof. by destruct s. Qed.

Section dondominio_claims.
Context `{!Repo} `{!dondominio.Codec}.
Import dondominio ipversion.

(** C2. The claim is that [Update] never aborts on what the vendor
    sends. The code does: when the client answers 200 and the body
    decodes to [success = true] with an empty list of glue records,
    the index expression [GlueRecords[0]] panics; [Update] returns
    neither an IP nor an error. *)
Theorem dondominio_Update_panics_on_empty_glue p c client ip response data :
  http.Do client (Update_request p c ip) = ok response →
  http.StatusCode response = 200 →
  json_Decode (http.ResponseBody response) = ok data →
  Success data = true →
  GlueRecords data = [] →
  Update p (Some c) client ip
  = Panicked "runtime error: index out of range [0] with length 0".
Proof.
  intros Hdo Hstatus Hdecode Hsuccess Hglue.
  rewrite (dondominio_Update_answered _ _ _ _ _ Hdo).
  unfold Update_response. by rewrite Hstatus, Hdecode, Hsuccess, Hglue.
Qed.

(** C4. On settings that decode, [New] checks the rules in the order
    username, password, record name, host (an empty host being "@"
    first): it returns the error of the first rule that is violated,
    whatever the later fields are, and it returns a provider exactly
    when no rule is violated. *)
Theorem dondominio_New_first_violated_rule data domain host v s :
  json_Unmarshal data = ok s →
  let h := if String.eqb host "" then "@" else host in
  let r := New data domain host v in
  (Username s = "" → r = (None, Some (Sentinel ErrEmptyUsername)))
  ∧ (Username s ≠ "" → Password s = "" →
     r = (None, Some (Sentinel ErrEmptyPassword)))
  ∧ (Username s ≠ "" → Password s ≠ "" → Name s = "" →
     r = (None, Some (Sentinel ErrEmptyName)))
  ∧ (Username s ≠ "" → Password s ≠ "" → Name s ≠ "" → h ≠ "@" →
     r = (None, Some (Sentinel ErrHostOnlyAt)))
  ∧ (Username s ≠ "" → Password s ≠ "" → Name s ≠ "" → h = "@" →
     r = (Some {| domain := domain; host := "@"; ipVersion := v;
                  username := Username s; password := Password s;
                  name := Name s |}, None))
  ∧ ((∃ p, r = (Some p, None))
     ↔ Username s ≠ "" ∧ Password s ≠ "" ∧ Name s ≠ "" ∧ h = "@").
Proof.
  intros Hdecode h r. subst h r. unfold New. rewrite Hdecode.
  unfold isValid. cbn [username password name dondominio.host].
  rewrite !length_zero_eqb.
  destruct (String.eqb_spec (Username s) "") as [Hu | Hu]; cbn.
  { split_and!; try done.
    split; [intros [p' [=]] | intros (? & ? & ? & ?); done]. }
  destruct (String.eqb_spec (Password s) "") as [Hp | Hp]; cbn.
  { split_and!; try done.
    split; [intros [p' [=]] | intros (? & ? & ? & ?); done]. }
  destruct (String.eqb_spec (Name s) "") as [Hn | Hn]; cbn.
  { split_and!; try done.
    split; [intros [p' [=]] | intros (? & ? & ? & ?); done]. }
  destruct (String.eqb_spec (if String.eqb host "" then "@" else host) "@")
    as [Hh | Hh]; cbn.
  - rewrite Hh. split_and!; try done. split; [done | eauto].
  - split_and!; try done.
    split; [intros [p' [=]] | intros (? & ? & ? & ?); done].
Qed.



End dondominio_claims.

Lemma dondominio_Update_panics_on_empty_glue_sample :
  @dondominio.Update sample.repo sample.dondominio_codec
    (sample.dondominio_provider ipversion.IP4) (Some sample.background)
    (sample.answering 200 sample.json_no_glue) sample.ip_1234
  = Panicked "runtime error: index out of range [0] with length 0".
Proof.
  apply (@dondominio_Update_panics_on_empty_glue sample.repo sample.dondominio_codec
           (sample.dondominio_provider ipversion.IP4) sample.background
           (sample.answering 200 sample.json_no_glue) sample.ip_1234
           {| http.StatusCode := 200; http.ResponseBody := sample.json_no_glue |}
           {| dondominio.Success := true; dondominio.ErrorCode := 0;
              dondominio.ErrorCodeMessage := ""; dondominio.GlueRecords := [] |});
    reflexivity.
Defined.

(** Settings that violate the first three rules, with a host that
    violates the fourth: the error is that of the first rule. *)
Lemma dondominio_New_first_violated_rule_sample :
  @dondominio.New sample.dondominio_codec sample.dondominio_settings_blank
    "example.com" "www" ipversion.IP4
  = (None, Some (Sentinel ErrEmptyUsername)).
Proof.
  refine (proj1
    (@dondominio_New_first_violated_rule sample.dondominio_codec
       sample.dondominio_settings_blank "example.com" "www" ipversion.IP4
       {| dondominio.Username := ""; dondominio.Password := "";
          dondominio.Name := "" |} _) _); reflexivity.
Defined.

Example dondominio_New_sample :
  @dondominio.New sample.dondominio_codec sample.dondominio_settings
    "example.com" "" ipversion.IP6
  = (Some (sample.dondominio_provider ipversion.IP6), None).
Proof. reflexivity. Qed.

Example dondominio_body_IPv4_sample :
  url.Encode (dondominio.Update_values (sample.dondominio_provider ipversion.IP6)
                sample.ip_1234)
  = "apipasswd=secret&apiuser=user&domain=example.com&ipv4=1.2.3.4&name=home".
Proof. vm_compute. reflexivity. Qed.

Example dondominio_body_IPv6_sample :
  url.Encode (dondominio.Update_values (sample.dondominio_provider ipversion.IP4)
                sample.ip_2001_db8_1)
  = "apipasswd=secret&apiuser=user&domain=example.com&ipv6=2001%3Adb8%3A%3A1&name=home".
Proof. vm_compute. reflexivity. Qed.

(** ** Both providers: the HTTP status *)

Section status_claims.
Context `{!Repo} `{!namecheap.Codec} `{!dondominio.Codec}.

(** C8. When the client answers with a status other than 200, [Update]
    of either provider returns a nil IP and the error [ErrBadHTTPStatus]
    wrapped with the status code and the body on one line; the body is
    not decoded, so no decoder can change the result. *)
Theorem Update_bad_HTTP_status c client ip response :
  http.StatusCode response ≠ 200 →
  let err := Wrapf ErrBadHTTPStatus
               (gostr.itoa (http.StatusCode response) ++ ": "
                  ++ BodyToSingleLine (http.ResponseBody response)) in
  errors.Is err ErrBadHTTPStatus = true
  ∧ (∀ p, http.Do client (namecheap.Update_request p c ip) = ok response →
          namecheap.Update p (Some c) client ip = Returned (None, Some err))
  ∧ (∀ p, http.Do client (dondominio.Update_request p c ip) = ok response →
          dondominio.Update p (Some c) client ip = Returned (None, Some err)).
Proof.
  intros Hstatus err.
  assert (Hne : negb (http.StatusCode response =? http.StatusOK) = true).
  { apply negb_true_iff, Z.eqb_neq. exact Hstatus. }
  split_and!.
  - reflexivity.
  - intros p Hdo. rewrite (namecheap_Update_answered _ _ _ _ _ Hdo).
    unfold namecheap.Update_response. by rewrite Hne.
  - intros p Hdo. rewrite (dondominio_Update_answered _ _ _ _ _ Hdo).
    unfold dondominio.Update_response. by rewrite Hne.
Qed.

End status_claims.

Lemma Update_bad_HTTP_status_sample :
  @namecheap.Update sample.repo sample.namecheap_codec sample.namecheap_provider
    (Some sample.background) (sample.answering 503 sample.xml_ip_1234) sample.ip_1234
  = Returned (None, Some (Wrapf ErrBadHTTPStatus
                            (gostr.itoa 503 ++ ": "
                               ++ @BodyToSingleLine sample.repo sample.xml_ip_1234)))
  ∧ @dondominio.Update sample.repo sample.dondominio_codec
      (sample.dondominio_provider ipversion.IP4) (Some sample.background)
      (sample.answering 503 sample.json_glue_1234) sample.ip_1234
    = Returned (None, Some (Wrapf ErrBadHTTPStatus
                              (gostr.itoa 503 ++ ": "
                                 ++ @BodyToSingleLine sample.repo
                                      sample.json_glue_1234))).
Proof.
  pose proof (@Update_bad_HTTP_status sample.repo sample.namecheap_codec
                sample.dondominio_codec sample.background
                (sample.answering 503 sample.xml_ip_1234) sample.ip_1234
                {| http.StatusCode := 503; http.ResponseBody := sample.xml_ip_1234 |})
    as Hn.
  pose proof (@Update_bad_HTTP_status sample.repo sample.namecheap_codec
                sample.dondominio_codec sample.background
                (sample.answering 503 sample.json_glue_1234) sample.ip_1234
                {| http.StatusCode := 503; http.ResponseBody := sample.json_glue_1234 |})
    as Hd.
  cbn [http.StatusCode http.ResponseBody] in Hn, Hd.
  assert (Hstatus : 503 ≠ 200) by discriminate.
  specialize (Hn Hstatus). specialize (Hd Hstatus). cbv zeta in Hn, Hd.
  destruct Hn as (_ & Hn & _). destruct Hd as (_ & _ & Hd).
  split.
  - exact (Hn sample.namecheap_provider eq_refl).
  - exact (Hd (sample.dondominio_provider ipversion.IP4) eq_refl).
Defined.

Example bad_HTTP_status_text_sample :
  gostr.itoa 503 ++ ": " ++ @BodyToSingleLine sample.repo sample.xml_ip_1234
  = "503: <interface-response><IP>1.2.3.4</IP><ErrCount>0</ErrCount></interface-response>".
Proof. vm_compute. reflexivity. Qed.

(** ** The health server *)

Section health_facts.
Context `{!Repo}.
Variable srv : health.Server.
Import health.

Lemma start_discipline c : done_discipline (start c).
Proof. left. by split. Qed.

Lemma step_discipline st ev st' :
  done_discipline st → step srv st ev = Some st' → done_discipline st'.
Proof.
  intros Hinv Hstep. destruct ev as [| | err | err]; cbn in Hstep.
  - (* Cancel *)
    injection Hstep as <-. destruct Hinv as [[Hc Hr] | (Hc & Hr & _)]; cbn.
    + left. by split.
    + right. by split_and!.
  - (* RunStep *)
    unfold run_step in Hstep. destruct Hinv as [[Hc Hr] | (Hc & Hr & Hx)].
    + destruct (run st) as [| | e |] eqn:Hpc; try done.
      * destruct (canceled st) eqn:Hcan; cbn in Hstep; injection Hstep as <-.
        -- right. cbn. by rewrite Hc.
        -- left. cbn. by split.
      * destruct (negb (is_nil_error e) && negb (canceled st));
          injection Hstep as <-; left; cbn; by split.
    + by rewrite Hr in Hstep.
  - (* ListenerExit *)
    destruct (run st) eqn:Hpc; try done. injection Hstep as <-.
    destruct Hinv as [[Hc Hr] | (Hc & Hr & _)]; [| congruence].
    left. cbn. by split.
  - (* WatcherStep *)
    unfold watcher_step in Hstep.
    destruct (watcher st); try done.
    + destruct (canceled st) eqn:Hcan; try done. injection Hstep as <-.
      destruct Hinv as [[Hc Hr] | (Hc & Hr & Hx)]; cbn.
      * left. by split.
      * right. by split_and!.
    + injection Hstep as <-.
      destruct Hinv as [[Hc Hr] | (Hc & Hr & Hx)];
        destruct (negb (is_nil_error err)); cbn.
      * left. by split.
      * left. by split.
      * right. by split_and!.
      * right. by split_and!.
Qed.

Lemma exec_discipline evs : ∀ st st',
  done_discipline st → exec srv st evs = Some st' → done_discipline st'.
Proof.
  induction evs as [| ev evs IH]; intros st st' Hinv Hexec; cbn in Hexec.
  - by injection Hexec as <-.
  - destruct (step srv st ev) as [st1 |] eqn:Hstep; [| done].
    eapply IH; [| exact Hexec]. by eapply step_discipline.
Qed.

(** Only the return of [Run] changes the count of [close(done)]. *)
Lemma step_closes st ev st' :
  step srv st ev = Some st' →
  closes st' ≠ closes st →
  ev = RunStep ∧ run st = LoopHead ∧ canceled st = true ∧ run st' = Stopped.
Proof.
  intros Hstep Hne. destruct ev as [| | err | err]; cbn in Hstep.
  - injection Hstep as <-. done.
  - unfold run_step in Hstep. destruct (run st) as [| | e |]; try done.
    + destruct (canceled st); cbn in Hstep; injection Hstep as <-; done.
    + destruct (negb (is_nil_error e) && negb (canceled st));
        injection Hstep as <-; done.
  - destruct (run st); try done. injection Hstep as <-. done.
  - unfold watcher_step in Hstep. destruct (watcher st); try done.
    + destruct (canceled st); try done. injection Hstep as <-. done.
    + injection Hstep as <-. destruct (negb (is_nil_error err)); done.
Qed.

(** A crash while the context is live: the listener is started again. *)
Lemma crash_restart st err :
  run st = Serving → canceled st = false →
  ∃ st', exec srv st [ListenerExit (Some err); RunStep; RunStep] = Some st'
         ∧ run st' = Serving
         ∧ canceled st' = false
         ∧ listens st' = S (listens st)
         ∧ closes st' = closes st
         ∧ log st' = (log st ++ [(Error_, Error err); (Info, "restarting");
                                 (Info, "listening on " +:+ address srv)])%list.
Proof.
  destruct st as [pc w cn sh cl li lg]. cbn. intros -> ->.
  eexists. split; [reflexivity |]. cbn.
  split_and!; try reflexivity. by rewrite <- app_assoc.
Qed.

End health_facts.

Section health_claims.
Context `{!Repo}.
Variable srv : health.Server.
Import health.

(** C9. In every state [Run] reaches, under every schedule:
    [close(done)] has run at most once; it has run exactly when [Run]
    has returned; [Run] has returned only with the context canceled; a
    step changes the count of closes only when it is the return of
    [Run] from the loop head with the context canceled; and when the
    listener exits with an error while the context is live, the loop
    logs the error and starts the listener again, without closing
    [done]. *)
Theorem Run_closes_done_once_and_restarts c evs st :
  Run srv c evs = Some st →
  (closes st ≤ 1)%nat
  ∧ (closes st = 1%nat ↔ run st = Stopped)
  ∧ (run st = Stopped → canceled st = true)
  ∧ (∀ ev st', step srv st ev = Some st' → closes st' ≠ closes st →
       ev = RunStep ∧ run st = LoopHead ∧ canceled st = true ∧ run st' = Stopped)
  ∧ (∀ err, run st = Serving → canceled st = false →
       ∃ st', exec srv st [ListenerExit (Some err); RunStep; RunStep] = Some st'
              ∧ run st' = Serving
              ∧ canceled st' = false
              ∧ listens st' = S (listens st)
              ∧ closes st' = 0%nat
              ∧ log st' = (log st ++ [(Error_, Error err); (Info, "restarting");
                                      (Info, "listening on " +:+ address srv)])%list).
Proof.
  intros Hrun.
  assert (Hinv : done_discipline st).
  { eapply exec_discipline; [apply start_discipline | exact Hrun]. }
  split_and!.
  - destruct Hinv as [[-> _] | (-> & _)]; lia.
  - destruct Hinv as [[Hc Hr] | (Hc & Hr & _)]; split; intros; congruence.
  - destruct Hinv as [[_ Hr] | (_ & _ & Hx)]; intros; [contradiction | done].
  - intros ev st'. apply step_closes.
  - intros err Hpc Hcan.
    destruct (crash_restart srv st err Hpc Hcan) as (st' & He & Hr & Hx & Hl & Hc & Hlog).
    exists st'. split_and!; try done.
    destruct Hinv as [[Hc0 _] | (_ & Hr0 & _)]; congruence.
Qed.

End health_claims.

(** A schedule with one crash and one cancellation: the listener is
    started twice and [done] is closed once, at the end. *)
Lemma Run_closes_done_once_and_restarts_sample :
  ∃ st,
    @health.Run sample.repo sample.server false sample.crash_then_cancel = Some st
    ∧ health.run st = health.Stopped
    ∧ health.listens st = 2%nat
    ∧ health.closes st = 1%nat.
Proof.
  destruct (@health.Run sample.repo sample.server false sample.crash_then_cancel)
    as [st |] eqn:E; [| vm_compute in E; discriminate].
  exists st. split; [reflexivity |].
  destruct (@Run_closes_done_once_and_restarts sample.repo sample.server false
              sample.crash_then_cancel st E) as (_ & Hclosed & _).
  vm_compute in E. injection E as <-.
  split; [reflexivity |]. split; [reflexivity |].
  apply Hclosed. reflexivity.
Defined.

(** * Further properties of the providers *)

Section constructors.
Context `{!Repo} `{!namecheap.Codec} `{!dondominio.Codec}.
Import ipversion.

(** X1. The Namecheap [New] returns a provider or an error, never both
    and never neither. A provider it returns was built from settings
    that decoded, for a version other than [IP6], with a password the
    matcher accepts; it carries the domain, the host, the version and
    the matcher it was given, and it passes [isValid]. *)
Theorem namecheap_New_sound data domain host v m :
  let r := namecheap.New data domain host v m in
  (fst r = None ↔ snd r ≠ None)
  ∧ (∀ p, fst r = Some p →
       v ≠ IP6
       ∧ (∃ s, namecheap.json_Unmarshal data = ok s
               ∧ namecheap.password p = namecheap.Password s
               ∧ namecheap.useProviderIP p = namecheap.UseProviderIP s)
       ∧ namecheap.NamecheapPassword m (namecheap.password p) = true
       ∧ namecheap.isValid p = None
       ∧ namecheap.domain p = domain
       ∧ namecheap.host p = host
       ∧ namecheap.ipVersion p = v
       ∧ namecheap.matcher p = m).
Proof.
  unfold namecheap.New. case_bool_decide as Hv; cbn.
  { split; [split; done | done]. }
  destruct (namecheap.json_Unmarshal data) as [s | err]; cbn.
  2: { split; [split; done | done]. }
  unfold namecheap.isValid. cbn.
  destruct (namecheap.NamecheapPassword m (namecheap.Password s)) eqn:Hm; cbn.
  - split; [split; done |]. intros p [= <-]. cbn. rewrite Hm.
    split_and!; try done. by exists s.
  - split; [split; done | done].
Qed.

(** X2. In the Namecheap [New], for a version other than [IP6]: settings
    that do not decode give the decoder's error as it is, and settings
    that decode with a password the matcher refuses give
    [ErrMalformedPassword]; no provider is returned in either case. *)
Theorem namecheap_New_rejections data domain host v m :
  v ≠ IP6 →
  (∀ err, namecheap.json_Unmarshal data = failed err →
          namecheap.New data domain host v m = (None, Some err))
  ∧ (∀ s, namecheap.json_Unmarshal data = ok s →
          namecheap.NamecheapPassword m (namecheap.Password s) = false →
          namecheap.New data domain host v m
          = (None, Some (Sentinel ErrMalformedPassword))).
Proof.
  intros Hv. unfold namecheap.New. rewrite bool_decide_eq_false_2 by done.
  split.
  - intros err ->. reflexivity.
  - intros s -> Hm. unfold namecheap.isValid. cbn. by rewrite Hm.
Qed.

(** X3. The DonDominio [New] returns a provider or an error, never both
    and never neither; settings that do not decode give the decoder's
    error as it is. A provider it returns has the host "@" (the host
    given was empty or "@"), a username, a password and a record name
    that are not empty, the domain and the version it was given, and it
    passes [isValid]. *)
Theorem dondominio_New_sound data domain host v :
  let r := dondominio.New data domain host v in
  (fst r = None ↔ snd r ≠ None)
  ∧ (∀ err, dondominio.json_Unmarshal data = failed err → r = (None, Some err))
  ∧ (∀ p, fst r = Some p →
       dondominio.host p = "@"
       ∧ (host = "" ∨ host = "@")
       ∧ dondominio.username p ≠ ""
       ∧ dondominio.password p ≠ ""
       ∧ dondominio.name p ≠ ""
       ∧ dondominio.domain p = domain
       ∧ dondominio.ipVersion p = v
       ∧ dondominio.isValid p = None).
Proof.
  unfold dondominio.New.
  destruct (dondominio.json_Unmarshal data) as [s | err]; cbn.
  2: { split_and!; [split; done | by intros ? [= ->] | done]. }
  unfold dondominio.isValid. cbn. rewrite !length_zero_eqb.
  destruct (String.eqb_spec (dondominio.Username s) "") as [Hu | Hu]; cbn.
  { split_and!; [split; done | done | done]. }
  destruct (String.eqb_spec (dondominio.Password s) "") as [Hp | Hp]; cbn.
  { split_and!; [split; done | done | done]. }
  destruct (String.eqb_spec (dondominio.Name s) "") as [Hn | Hn]; cbn.
  { split_and!; [split; done | done | done]. }
  destruct (String.eqb_spec (if String.eqb host "" then "@" else host) "@")
    as [Hh | Hh]; cbn.
  - split_and!; [split; done | done |]. intros p [= <-]. cbn.
    rewrite !length_zero_eqb.
    destruct (String.eqb_spec (dondominio.Username s) ""); [done |].
    destruct (String.eqb_spec (dondominio.Password s) ""); [done |].
    destruct (String.eqb_spec (dondominio.Name s) ""); [done |].
    rewrite Hh. cbn. split_and!; try done.
    destruct (String.eqb_spec host ""); [by left | by right].
  - split_and!; [split; done | done | done].
Qed.

End constructors.

Lemma namecheap_New_rejections_sample :
  @namecheap.New sample.namecheap_codec "{" "example.com" "@" ipversion.IP4
    sample_more.length_32
  = (None, Some (Foreign "unexpected end of input")).
Proof.
  refine (proj1 (@namecheap_New_rejections sample.namecheap_codec "{"
                   "example.com" "@" ipversion.IP4 sample_more.length_32 _) _ _);
    [discriminate | reflexivity].
Defined.

(** ** What [Update] returns, path by path *)

Section update_paths.
Context `{!Repo} `{!namecheap.Codec} `{!dondominio.Codec}.

Lemma dondominio_Update_panics_on_empty_glue_general p c client ip response data :
  http.Do client (dondominio.Update_request p c ip) = ok response →
  http.StatusCode response = 200 →
  dondominio.json_Decode (http.ResponseBody response) = ok data →
  dondominio.Success data = true →
  dondominio.GlueRecords data = [] →
  dondominio.Update p (Some c) client ip
  = Panicked "runtime error: index out of range [0] with length 0".
Proof.
  intros Hdo Hstatus Hdecode Hsuccess Hglue.
  rewrite (dondominio_Update_answered _ _ _ _ _ Hdo).
  unfold dondominio.Update_response. by rewrite Hstatus, Hdecode, Hsuccess, Hglue.
Qed.

(** X4. Errors of the transport are handed back as they are, with a nil
    IP, by both providers: with a nil context no request is built and
    the result is the error of [http.NewRequestWithContext], whatever
    the client is; when the client fails, the result is the client's
    error. *)
Theorem Update_transport_errors ip :
  (∀ p client,
     namecheap.Update p None client ip
     = Returned (None, Some (Foreign "net/http: nil Context")))
  ∧ (∀ p client,
       dondominio.Update p None client ip
       = Returned (None, Some (Foreign "net/http: nil Context")))
  ∧ (∀ p c client err,
       http.Do client (namecheap.Update_request p c ip) = failed err →
       namecheap.Update p (Some c) client ip = Returned (None, Some err))
  ∧ (∀ p c client err,
       http.Do client (dondominio.Update_request p c ip) = failed err →
       dondominio.Update p (Some c) client ip = Returned (None, Some err)).
Proof.
  split_and!; try reflexivity.
  - intros p c client err Hdo. unfold namecheap.Update.
    cbn [http.NewRequestWithContext].
    change (namecheap.setHeaders _) with (namecheap.Update_request p c ip).
    by rewrite Hdo.
  - intros p c client err Hdo. unfold dondominio.Update.
    cbn [http.NewRequestWithContext].
    change (dondominio.setHeaders _) with (dondominio.Update_request p c ip).
    by rewrite Hdo.
Qed.

(** X5. In the Namecheap [Update], after a 200 status: a body that does
    not decode gives [ErrUnmarshalResponse] with the decoder's message;
    a body that decodes with an error text gives
    [ErrUnsuccessfulResponse] with that text, whatever its IP field is
    (even the requested address). *)
Theorem namecheap_Update_rejections p c client ip response :
  http.Do client (namecheap.Update_request p c ip) = ok response →
  http.StatusCode response = 200 →
  (∀ err, namecheap.xml_Decode (http.ResponseBody response) = failed err →
          namecheap.Update p (Some c) client ip
          = Returned (None, Some (Wrapf ErrUnmarshalResponse (Error err))))
  ∧ (∀ parsed, namecheap.xml_Decode (http.ResponseBody response) = ok parsed →
               namecheap.Errors_Error parsed ≠ "" →
               namecheap.Update p (Some c) client ip
               = Returned (None, Some (Wrapf ErrUnsuccessfulResponse
                                         (namecheap.Errors_Error parsed)))).
Proof.
  intros Hdo Hstatus. rewrite (namecheap_Update_answered _ _ _ _ _ Hdo).
  unfold namecheap.Update_response. rewrite Hstatus. cbn. split.
  - by intros err ->.
  - intros parsed -> Herr.
    destruct (String.eqb_spec (namecheap.Errors_Error parsed) ""); done.
Qed.

(** X6. The Namecheap [Update] with a nil requested IP and a response
    whose IP field parses hands back the address of the vendor, without
    any comparison. *)
Theorem namecheap_Update_nil_IP_takes_vendor_IP p c client response parsed b :
  http.Do client (namecheap.Update_request p c None) = ok response →
  http.StatusCode response = 200 →
  namecheap.xml_Decode (http.ResponseBody response) = ok parsed →
  namecheap.Errors_Error parsed = "" →
  net.ParseIP (namecheap.IP parsed) = Some b →
  namecheap.Update p (Some c) client None = Returned (Some b, None).
Proof.
  intros Hdo Hstatus Hdecode Herr Hparse.
  rewrite (namecheap_Update_answered _ _ _ _ _ Hdo).
  assert (Hfield : namecheap.IP parsed ≠ "").
  { intros E. rewrite E in Hparse. discriminate. }
  rewrite (namecheap_response_with_IP _ _ _ Hstatus Hdecode Herr Hfield).
  by rewrite Hparse.
Qed.

(** X7. In the DonDominio [Update], a 200 response that decodes with
    [success = false] gives [ErrUnsuccessfulResponse] with the vendor's
    message and code, whatever the glue records are: the list is not
    read, so an empty one does not panic here. A body that does not
    decode gives [ErrUnmarshalResponse]. *)
Theorem dondominio_Update_rejections p c client ip response :
  http.Do client (dondominio.Update_request p c ip) = ok response →
  http.StatusCode response = 200 →
  (∀ err, dondominio.json_Decode (http.ResponseBody response) = failed err →
          dondominio.Update p (Some c) client ip
          = Returned (None, Some (Wrapf ErrUnmarshalResponse (Error err))))
  ∧ (∀ data, dondominio.json_Decode (http.ResponseBody response) = ok data →
             dondominio.Success data = false →
             dondominio.Update p (Some c) client ip
             = Returned (None, Some (Wrapf ErrUnsuccessfulResponse
                                       (dondominio.ErrorCodeMessage data
                                          +:+ " (error code "
                                          +:+ gostr.itoa (dondominio.ErrorCode data)
                                          +:+ ")")))).
Proof.
  intros Hdo Hstatus. rewrite (dondominio_Update_answered _ _ _ _ _ Hdo).
  unfold dondominio.Update_response. rewrite Hstatus. cbn. split.
  - by intros err ->.
  - by intros data -> ->.
Qed.

(** X8. The DonDominio [Update] panics in one situation only: the
    context is not nil, the client answers 200, the body decodes with
    [success = true], and the list of glue records is empty. *)
Theorem dondominio_Update_panics_only_on_empty_glue p ctx client ip :
  (∃ reason, dondominio.Update p ctx client ip = Panicked reason)
  ↔ ∃ c response data,
      ctx = Some c
      ∧ http.Do client (dondominio.Update_request p c ip) = ok response
      ∧ http.StatusCode response = 200
      ∧ dondominio.json_Decode (http.ResponseBody response) = ok data
      ∧ dondominio.Success data = true
      ∧ dondominio.GlueRecords data = [].
Proof.
  split.
  - intros [reason Hp]. unfold dondominio.Update in Hp.
    destruct ctx as [c |]; cbn [http.NewRequestWithContext] in Hp; [| done].
    change (dondominio.setHeaders _) with (dondominio.Update_request p c ip) in Hp.
    destruct (http.Do client _) as [response | err] eqn:Hdo; [| done].
    unfold dondominio.Update_response in Hp.
    destruct (http.StatusCode response =? http.StatusOK) eqn:Hstatus; [| done].
    cbn in Hp.
    destruct (dondominio.json_Decode _) as [data | err] eqn:Hdecode; [| done].
    destruct (dondominio.Success data) eqn:Hsuccess; [| done]. cbn in Hp.
    destruct (dondominio.GlueRecords data) as [| first others] eqn:Hglue.
    + exists c, response, data. split_and!; try done. by apply Z.eqb_eq.
    + cbn in Hp. destruct (net.ParseIP _); [| done].
      by destruct (net.Equal ip _).
  - intros (c & response & data & -> & Hdo & Hstatus & Hdecode & Hsuccess & Hglue).
    eexists. by eapply dondominio_Update_panics_on_empty_glue_general.
Qed.

End update_paths.

(** ** The addresses [net.ParseIP] makes *)

Lemma set_byte_length ip i b : length (net.set_byte ip i b) = length ip.
Proof. apply length_insert. Qed.

Lemma parseIPv4_length s b : net.parseIPv4 s = Some b → length b = 16%nat.
Proof.
  unfold net.parseIPv4, net.IPv4. repeat case_match; try done.
  by intros [= <-].
Qed.

Lemma parseIPv6_loop_length fuel : ∀ ip e i s ip' e' i' s',
  length ip = 16%nat →
  net.parseIPv6_loop fuel ip e i s = Some (ip', e', i', s') →
  length ip' = 16%nat.
Proof.
  induction fuel as [| fuel IH]; intros ip e i s ip' e' i' s' Hlen Hloop;
    cbn [net.parseIPv6_loop] in Hloop; [by simplify_eq |].
  repeat (case_match; simplify_eq; try done);
    rewrite ?set_byte_length; try done;
    (eapply IH; [| eassumption]; by rewrite ?set_byte_length).
Qed.

Lemma expand_move_length fuel : ∀ ip j n e,
  length (net.expand_move fuel ip j n e) = length ip.
Proof.
  induction fuel as [| fuel IH]; intros ip j n e; cbn [net.expand_move]; [done |].
  case_match; [| done]. by rewrite IH, set_byte_length.
Qed.

Lemma expand_clear_length fuel : ∀ ip j e,
  length (net.expand_clear fuel ip j e) = length ip.
Proof.
  induction fuel as [| fuel IH]; intros ip j e; cbn [net.expand_clear]; [done |].
  case_match; [| done]. by rewrite IH, set_byte_length.
Qed.

Lemma parseIPv6_length s b : net.parseIPv6 s = Some b → length b = 16%nat.
Proof.
  unfold net.parseIPv6. cbv zeta.
  match goal with
  | |- context [net.parseIPv6_loop ?f ?ip ?e ?i ?t] =>
      remember (net.parseIPv6_loop f ip e i t) as r eqn:Hloop
  end.
  symmetry in Hloop. destruct r as [[[[ip' e'] i'] t'] |].
  - apply parseIPv6_loop_length in Hloop; [| reflexivity].
    repeat case_match; intros Heq;
      first [discriminate Heq | apply (inj Some) in Heq; subst b];
      rewrite ?expand_clear_length, ?expand_move_length;
      first [exact Hloop | reflexivity].
  - clear Hloop. repeat case_match; intros Heq;
      first [discriminate Heq | apply (inj Some) in Heq; subst b]; reflexivity.
Qed.

Lemma ParseIP_scan_length rest : ∀ whole b,
  net.ParseIP_scan rest whole = Some b → length b = 16%nat.
Proof.
  induction rest as [| ch rest IH]; intros whole b; cbn [net.ParseIP_scan]; [done |].
  repeat case_match; eauto using parseIPv4_length, parseIPv6_length.
Qed.

(** Every address [net.ParseIP] returns has 16 bytes. *)
Lemma ParseIP_length s b : net.ParseIP s = Some b → length b = 16%nat.
Proof. apply ParseIP_scan_length. Qed.

Lemma Equal_nil_16 b : length b = 16%nat → net.Equal None (Some b) = false.
Proof. unfold net.Equal. cbn. by intros ->. Qed.

(** ** What a result of [Update] tells *)

Section update_results.
Context `{!Repo} `{!namecheap.Codec} `{!dondominio.Codec}.

(** X9. When the Namecheap [Update] returns an address with a nil error,
    the client answered 200 with a body that decoded without error text,
    and either the IP field was empty and the address is the requested
    one, or the IP field parsed to the address returned, which has 16
    bytes and, when an address was requested, is equal to it. *)
Theorem namecheap_Update_confirmed_sound p ctx client ip b :
  namecheap.Update p ctx client ip = Returned (Some b, None) →
  ∃ c response parsed,
    ctx = Some c
    ∧ http.Do client (namecheap.Update_request p c ip) = ok response
    ∧ http.StatusCode response = 200
    ∧ namecheap.xml_Decode (http.ResponseBody response) = ok parsed
    ∧ namecheap.Errors_Error parsed = ""
    ∧ ((namecheap.IP parsed = "" ∧ ip = Some b)
       ∨ (namecheap.IP parsed ≠ ""
          ∧ net.ParseIP (namecheap.IP parsed) = Some b
          ∧ length b = 16%nat
          ∧ (ip = None ∨ net.Equal ip (Some b) = true))).
Proof.
  unfold namecheap.Update.
  destruct ctx as [c |]; cbn [http.NewRequestWithContext]; [| done].
  change (namecheap.setHeaders _) with (namecheap.Update_request p c ip).
  destruct (http.Do client _) as [response | err] eqn:Hdo; [| done].
  unfold namecheap.Update_response.
  destruct (http.StatusCode response =? http.StatusOK) eqn:Hstatus; [| done].
  cbn [negb].
  destruct (namecheap.xml_Decode _) as [parsed | err] eqn:Hdecode; [| done].
  destruct (String.eqb_spec (namecheap.Errors_Error parsed) "") as [Herr | Herr];
    [| done].
  cbn [negb].
  destruct (String.eqb_spec (namecheap.IP parsed) "") as [Hfield | Hfield].
  - intros [= ->]. exists c, response, parsed.
    split_and!; try done; [by apply Z.eqb_eq | by left].
  - destruct (net.ParseIP (namecheap.IP parsed)) as [b' |] eqn:Hparse; [| done].
    destruct (net.is_nil ip) eqn:Hnil; cbn [negb andb].
    + intros [= ->]. exists c, response, parsed.
      split_and!; try done; [by apply Z.eqb_eq |].
      right. split_and!; try done; [by eapply ParseIP_length |].
      left. by destruct ip.
    + destruct (net.Equal ip (Some b')) eqn:Heq; cbn [negb]; [| done].
      intros [= ->]. exists c, response, parsed.
      split_and!; try done; [by apply Z.eqb_eq |].
      right. split_and!; try done; [by eapply ParseIP_length | by right].
Qed.

(** X10. When the DonDominio [Update] returns an address with a nil
    error, an address was requested (the requested IP is not nil), the
    address returned is equal to it and has 16 bytes, and it is what
    the field of the first glue record chosen by [ip.To4() != nil]
    parses to, in a 200 response with [success = true]. *)
Theorem dondominio_Update_confirmed_sound p ctx client ip b :
  dondominio.Update p ctx client ip = Returned (Some b, None) →
  ip ≠ None
  ∧ net.Equal ip (Some b) = true
  ∧ length b = 16%nat
  ∧ ∃ c response data first,
      ctx = Some c
      ∧ http.Do client (dondominio.Update_request p c ip) = ok response
      ∧ http.StatusCode response = 200
      ∧ dondominio.json_Decode (http.ResponseBody response) = ok data
      ∧ dondominio.Success data = true
      ∧ dondominio.GlueRecords data !! 0%nat = Some first
      ∧ net.ParseIP (if dondominio.isIPv4 ip then dondominio.IPv4 first
                     else dondominio.IPv6 first) = Some b.
Proof.
  unfold dondominio.Update.
  destruct ctx as [c |]; cbn [http.NewRequestWithContext]; [| done].
  change (dondominio.setHeaders _) with (dondominio.Update_request p c ip).
  destruct (http.Do client _) as [response | err] eqn:Hdo; [| done].
  unfold dondominio.Update_response.
  destruct (http.StatusCode response =? http.StatusOK) eqn:Hstatus; [| done].
  cbn [negb].
  destruct (dondominio.json_Decode _) as [data | err] eqn:Hdecode; [| done].
  destruct (dondominio.Success data) eqn:Hsuccess; [| done]. cbn [negb].
  destruct (dondominio.GlueRecords data !! 0%nat) as [first |] eqn:Hglue; [| done].
  cbn zeta.
  assert (Hsel : (if negb (dondominio.isIPv4 ip) then dondominio.IPv6 first
                  else dondominio.IPv4 first)
                 = (if dondominio.isIPv4 ip then dondominio.IPv4 first
                    else dondominio.IPv6 first)) by by destruct (dondominio.isIPv4 ip).
  rewrite Hsel.
  destruct (net.ParseIP _) as [b' |] eqn:Hparse; [| done].
  destruct (net.Equal ip (Some b')) eqn:Heq; cbn [negb]; [| done].
  intros [= ->].
  pose proof (ParseIP_length _ _ Hparse) as Hlen.
  split_and!; try done.
  - intros ->. by rewrite (Equal_nil_16 _ Hlen) in Heq.
  - exists c, response, data, first. split_and!; try done. by apply Z.eqb_eq.
Qed.

(** X11. Whenever [Update] of either provider returns an error, the IP
    it returns is nil, and the error is either the error of the
    transport, as it is, or one of [ErrBadHTTPStatus],
    [ErrUnmarshalResponse], [ErrUnsuccessfulResponse],
    [ErrIPReceivedMalformed] and [ErrIPReceivedMismatch] wrapped with a
    text; no other error value of the repository is returned. *)
Theorem Update_error_taxonomy ctx client ip newIP err :
  (∀ p, namecheap.Update p ctx client ip = Returned (newIP, Some err) →
        newIP = None
        ∧ (transport_error ctx client (λ c, namecheap.Update_request p c ip) err
           ∨ ∃ s detail, err = Wrapf s detail ∧ update_sentinel s))
  ∧ (∀ p, dondominio.Update p ctx client ip = Returned (newIP, Some err) →
          newIP = None
          ∧ (transport_error ctx client (λ c, dondominio.Update_request p c ip) err
             ∨ ∃ s detail, err = Wrapf s detail ∧ update_sentinel s)).
Proof.
  unfold update_sentinel, transport_error. split; intros p.
  - unfold namecheap.Update.
    destruct ctx as [c |]; cbn [http.NewRequestWithContext].
    2: { intros [= <- <-]. split; [done |]. left. by left. }
    change (namecheap.setHeaders _) with (namecheap.Update_request p c ip).
    destruct (http.Do client _) as [response | e] eqn:Hdo.
    2: { intros [= <- <-]. split; [done |]. left. right. by exists c. }
    unfold namecheap.Update_response.
    repeat case_match; intros [= <- <-]; (split; [done |]); right;
      eexists _, _; (split; [reflexivity |]); tauto.
  - unfold dondominio.Update.
    destruct ctx as [c |]; cbn [http.NewRequestWithContext].
    2: { intros [= <- <-]. split; [done |]. left. by left. }
    change (dondominio.setHeaders _) with (dondominio.Update_request p c ip).
    destruct (http.Do client _) as [response | e] eqn:Hdo.
    2: { intros [= <- <-]. split; [done |]. left. right. by exists c. }
    unfold dondominio.Update_response.
    repeat case_match; try done; intros [= <- <-]; (split; [done |]); right;
      eexists _, _; (split; [reflexivity |]); tauto.
Qed.

End update_results.

(** ** An IPv4 address sent and echoed *)

Lemma scan_decimal_field a rest whole :
  net.ParseIP_scan (net.ubtoa a +:+ String "." rest) whole = net.parseIPv4 whole.
Proof. destruct a; reflexivity. Qed.

Lemma parse_first_field a rest k :
  net.parseIPv4_fields (S k) true (net.ubtoa a +:+ String "." rest)
  = match net.parseIPv4_fields k false (String "." rest) with
    | Some (p, r) => Some (a :: p, r)
    | None => None
    end.
Proof. destruct a; reflexivity. Qed.

Lemma parse_next_field a rest k :
  net.parseIPv4_fields (S k) false (String "." (net.ubtoa a +:+ String "." rest))
  = match net.parseIPv4_fields k false (String "." rest) with
    | Some (p, r) => Some (a :: p, r)
    | None => None
    end.
Proof. destruct a; reflexivity. Qed.

Lemma parse_last_field a :
  net.parseIPv4_fields 1 false (String "." (net.ubtoa a)) = Some ([a], "").
Proof. destruct a; reflexivity. Qed.

Lemma append_assoc_dot x y : (x +:+ "." +:+ y) = x +:+ String "." y.
Proof. reflexivity. Qed.

(** Parsing the dotted text of four bytes gives these bytes back, in the
    16-byte form. *)
Lemma ParseIP_dotted_bytes a b c d : net.ParseIP (dotted a b c d) = net.IPv4 a b c d.
Proof.
  unfold net.ParseIP, dotted. rewrite !append_assoc_dot.
  rewrite scan_decimal_field. unfold net.parseIPv4.
  rewrite parse_first_field, !parse_next_field, parse_last_field. reflexivity.
Qed.

Lemma bytes_eqb_refl l : net.bytes_eqb l l = true.
Proof.
  induction l as [| x l IH]; [done |]. cbn. rewrite IH.
  by rewrite (byte_dec_lb (eq_refl x)).
Qed.

Lemma bytes_eqb_eq l : ∀ l', net.bytes_eqb l l' = true → l = l'.
Proof.
  induction l as [| x l IH]; intros [| y l']; cbn; try done.
  intros [Hxy Hl]%andb_true_iff. f_equal; [by apply byte_dec_bl | by apply IH].
Qed.

(** An address whose [To4] is the four bytes [a, b, c, d] is these four
    bytes or their 16-byte form. *)
Lemma To4_shape ip a b c d :
  net.To4 ip = Some [a; b; c; d] →
  ip = Some [a; b; c; d] ∨ ip = net.IPv4 a b c d.
Proof.
  unfold net.To4, net.IPv4.
  destruct ip as [p |]; [| done]. cbn [net.bytes default from_option id].
  destruct (length p =? net.IPv4len)%nat eqn:H4.
  { intros [= ->]. by left. }
  destruct (length p =? net.IPv6len)%nat eqn:H16; [| done].
  apply Nat.eqb_eq in H16. clear H4.
  do 16 (destruct p as [| ? p]; [done |]). destruct p; [clear H16 | done].
  cbn [andb firstn skipn nth net.isZeros forallb].
  match goal with |- (if ?cond then _ else _) = _ → _ => destruct cond eqn:Hc end;
    [| done].
  rewrite !andb_true_iff in Hc. destruct_and!.
  repeat match goal with
         | H : (_ =? _)%byte = true |- _ => apply byte_dec_bl in H; subst
         end.
  intros [= -> -> -> ->]. by right.
Qed.

Lemma String_of_IPv4 ip a b c d :
  net.To4 ip = Some [a; b; c; d] → net.String ip = dotted a b c d.
Proof.
  intros H4. destruct (To4_shape _ _ _ _ _ H4) as [-> | ->]; reflexivity.
Qed.

Lemma Equal_of_IPv4 ip a b c d :
  net.To4 ip = Some [a; b; c; d] → net.Equal ip (net.IPv4 a b c d) = true.
Proof.
  intros H4. destruct (To4_shape _ _ _ _ _ H4) as [-> | ->];
    unfold net.Equal, net.IPv4; cbn;
    by rewrite ?(byte_dec_lb (eq_refl a)), ?(byte_dec_lb (eq_refl b)),
         ?(byte_dec_lb (eq_refl c)), ?(byte_dec_lb (eq_refl d)).
Qed.

Section echo.
Context `{!Repo} `{!namecheap.Codec} `{!dondominio.Codec}.

(** X12. When the requested address is an IPv4 address (in 4 or in 16
    bytes) and the vendor's IP field is the text [ip.String()] (what the
    request carries in its [ip] parameter), the Namecheap [Update]
    succeeds: the text parses back to the same address, which is
    returned in its 16-byte form with a nil error. *)
Theorem namecheap_Update_echoed_IPv4 p c client ip a b c' d response parsed :
  net.To4 ip = Some [a; b; c'; d] →
  http.Do client (namecheap.Update_request p c ip) = ok response →
  http.StatusCode response = 200 →
  namecheap.xml_Decode (http.ResponseBody response) = ok parsed →
  namecheap.Errors_Error parsed = "" →
  namecheap.IP parsed = net.String ip →
  namecheap.Update p (Some c) client ip = Returned (net.IPv4 a b c' d, None).
Proof.
  intros H4 Hdo Hstatus Hdecode Herr Hfield.
  rewrite (namecheap_Update_answered _ _ _ _ _ Hdo).
  rewrite (String_of_IPv4 _ _ _ _ _ H4) in Hfield.
  assert (Hne : namecheap.IP parsed ≠ "").
  { rewrite Hfield. intros E.
    pose proof (ParseIP_dotted_bytes a b c' d) as Hp. rewrite E in Hp. done. }
  rewrite (namecheap_response_with_IP _ _ _ Hstatus Hdecode Herr Hne).
  rewrite Hfield, ParseIP_dotted_bytes. unfold net.IPv4 at 1.
  change (Some (net.v4InV6Prefix ++ [a; b; c'; d])%list) with (net.IPv4 a b c' d).
  by rewrite (Equal_of_IPv4 _ _ _ _ _ H4), andb_false_r.
Qed.

(** X13. When the requested address is an IPv4 address and the [ipv4]
    field of the first glue record is the text [ip.String()] that the
    request carries, the DonDominio [Update] succeeds and returns the
    address in its 16-byte form with a nil error. *)
Theorem dondominio_Update_echoed_IPv4 p c client ip a b c' d response data
    first others :
  net.To4 ip = Some [a; b; c'; d] →
  http.Do client (dondominio.Update_request p c ip) = ok response →
  http.StatusCode response = 200 →
  dondominio.json_Decode (http.ResponseBody response) = ok data →
  dondominio.Success data = true →
  dondominio.GlueRecords data = first :: others →
  dondominio.IPv4 first = net.String ip →
  dondominio.Update p (Some c) client ip = Returned (net.IPv4 a b c' d, None).
Proof.
  intros H4 Hdo Hstatus Hdecode Hsuccess Hglue Hfield.
  rewrite (dondominio_Update_answered _ _ _ _ _ Hdo).
  rewrite (dondominio_response_first_glue _ _ _ _ _ Hstatus Hdecode Hsuccess Hglue).
  unfold dondominio.isIPv4. rewrite H4. cbn [net.is_nil negb].
  rewrite Hfield, (String_of_IPv4 _ _ _ _ _ H4).
  unfold dondominio.received. rewrite ParseIP_dotted_bytes. unfold net.IPv4 at 1.
  change (Some (net.v4InV6Prefix ++ [a; b; c'; d])%list) with (net.IPv4 a b c' d).
  by rewrite (Equal_of_IPv4 _ _ _ _ _ H4).
Qed.

End echo.

(** ** The texts the providers send *)

Lemma contains_app ch x y :
  form.contains ch (x +:+ y) = form.contains ch x || form.contains ch y.
Proof.
  induction x as [| ch' x IH]; [done |].
  simpl. by rewrite IH, orb_assoc.
Qed.

Lemma split_without ch x : form.contains ch x = false → form.split ch x = [x].
Proof.
  induction x as [| ch' x IH]; [done |]. cbn [form.contains form.split].
  intros [Hch Hx]%orb_false_iff. by rewrite Hch, (IH Hx).
Qed.

Lemma split_app ch x y :
  form.contains ch x = false →
  form.split ch (x +:+ String ch y) = x :: form.split ch y.
Proof.
  induction x as [| ch' x IH]; simpl.
  - intros _. by rewrite Ascii.eqb_refl.
  - intros [Hch Hx]%orb_false_iff. by rewrite Hch, (IH Hx).
Qed.

(** Joining pieces that do not contain the separator and splitting the
    result gives the pieces back. *)
Lemma split_concat ch l :
  l ≠ [] →
  Forall (λ x, form.contains ch x = false) l →
  form.split ch (String.concat (String ch "") l) = l.
Proof.
  intros Hne Hall. induction Hall as [| x l Hx Hall IH]; [done |].
  destruct l as [| y l]; cbn [String.concat].
  - by apply split_without.
  - change (String ch "" +:+ ?t) with (String ch t).
    rewrite (split_app _ _ _ Hx). f_equal. by apply IH.
Qed.

Lemma upper_hex_char_plain v :
  Ascii.eqb (url.upper_hex_char v) "&" = false
  ∧ Ascii.eqb (url.upper_hex_char v) "=" = false.
Proof.
  unfold url.upper_hex_char. generalize (Z.to_nat (Z.land v 15)) as n. intros n.
  do 16 (destruct n as [| n]; [by split |]). by split.
Qed.

(** [QueryEscape] leaves neither [&] nor [=] in its result. *)
Lemma QueryEscape_contains s :
  form.contains "&" (url.QueryEscape s) = false
  ∧ form.contains "=" (url.QueryEscape s) = false.
Proof.
  induction s as [| ch s [IH1 IH2]]; [done |]. cbn [url.QueryEscape].
  destruct (Ascii.eqb ch " ") eqn:Hsp; [cbn; by rewrite IH1, IH2 |].
  destruct (url.shouldEscape ch) eqn:Hesc.
  - cbn [form.contains]. rewrite IH1, IH2, !orb_false_r.
    destruct (upper_hex_char_plain (Z.shiftr (gostr.code ch) 4)) as [-> ->].
    destruct (upper_hex_char_plain (gostr.code ch)) as [-> ->]. by split.
  - cbn [form.contains]. rewrite IH1, IH2, !orb_false_r.
    split.
    + destruct (Ascii.eqb_spec ch "&") as [-> |]; [discriminate Hesc | done].
    + destruct (Ascii.eqb_spec ch "=") as [-> |]; [discriminate Hesc | done].
Qed.

Lemma pair_plain key value :
  form.contains "&" key = false →
  form.contains "=" key = false →
  form.contains "&" (key +:+ "=" +:+ url.QueryEscape value) = false
  ∧ form.split "=" (key +:+ "=" +:+ url.QueryEscape value)
    = [key; url.QueryEscape value].
Proof.
  intros Hamp Heq. destruct (QueryEscape_contains value) as [Hv1 Hv2]. split.
  - rewrite !contains_app, Hamp, Hv1. reflexivity.
  - change (key +:+ "=" +:+ ?t) with (key +:+ String "=" t).
    rewrite (split_app _ _ _ Heq). by rewrite (split_without _ _ Hv2).
Qed.

(** The fields of the encoding of a list of pairs whose keys are
    plain. *)
Lemma fields_of_pairs (kvs : list (string * string)) :
  kvs ≠ [] →
  Forall (λ kv, form.contains "&" kv.1 = false ∧ form.contains "=" kv.1 = false) kvs →
  form.fields
    (String.concat "&" (map (λ kv, kv.1 +:+ "=" +:+ url.QueryEscape kv.2) kvs))
  = map (λ kv, [kv.1; url.QueryEscape kv.2]) kvs.
Proof.
  intros Hne Hkeys. unfold form.fields.
  rewrite split_concat.
  - rewrite map_map. apply map_ext_Forall.
    eapply Forall_impl; [exact Hkeys |]. intros [k v] [H1 H2]. cbn.
    by destruct (pair_plain k v H1 H2).
  - by destruct kvs.
  - apply Forall_map. eapply Forall_impl; [exact Hkeys |].
    intros [k v] [H1 H2]. cbn. by destruct (pair_plain k v H1 H2).
Qed.

Section requests.
Context `{!Repo}.

Lemma dondominio_encoded_pairs p ip :
  url.encoded_pairs (dondominio.Update_values p ip)
  = map (λ kv, kv.1 +:+ "=" +:+ url.QueryEscape kv.2)
      [ ("apipasswd", dondominio.password p);
        ("apiuser", dondominio.username p);
        ("domain", dondominio.domain p);
        (if dondominio.isIPv4 ip then "ipv4" else "ipv6", net.String ip);
        ("name", dondominio.name p) ].
Proof.
  assert (Hkeys : url.sorted_keys (dondominio.Update_values p ip) =
                    [ "apipasswd"; "apiuser"; "domain";
                      if dondominio.isIPv4 ip then "ipv4" else "ipv6"; "name" ]).
  { unfold dondominio.Update_values. generalize (net.String ip) as text. intros text.
    destruct p as [d h v u pw n].
    cbn [dondominio.username dondominio.password dondominio.domain dondominio.name].
    by destruct (dondominio.isIPv4 ip); vm_compute. }
  unfold url.encoded_pairs. rewrite Hkeys. cbn [flat_map map].
  rewrite !dondominio_values_lookup.
  destruct (dondominio.isIPv4 ip); reflexivity.
Qed.

Lemma namecheap_encoded_pairs p ip :
  url.encoded_pairs (namecheap.Update_values p ip)
  = map (λ kv, kv.1 +:+ "=" +:+ url.QueryEscape kv.2)
      ([ ("domain", namecheap.domain p); ("host", namecheap.host p) ]
         ++ (if namecheap.useProviderIP p then [] else [("ip", net.String ip)])
         ++ [ ("password", namecheap.password p) ])%list.
Proof.
  unfold url.encoded_pairs, namecheap.Update_values.
  generalize (net.String ip) as text. intros text.
  destruct p as [d h v pw use m].
  cbn [namecheap.useProviderIP namecheap.domain namecheap.host namecheap.password].
  destruct use; cbn [negb].
  - assert (Hkeys : url.sorted_keys
                      (url.Set_ "password" pw
                         (url.Set_ "domain" d (url.Set_ "host" h ∅)))
                    = ["domain"; "host"; "password"]) by by vm_compute.
    rewrite Hkeys. cbn [flat_map map]. unfold url.Set_.
    rewrite !lookup_insert. reflexivity.
  - assert (Hkeys : url.sorted_keys
                      (url.Set_ "ip" text
                         (url.Set_ "password" pw
                            (url.Set_ "domain" d (url.Set_ "host" h ∅))))
                    = ["domain"; "host"; "ip"; "password"]) by by vm_compute.
    rewrite Hkeys. cbn [flat_map map]. unfold url.Set_.
    rewrite !lookup_insert. reflexivity.
Qed.

(** X14. The body of the DonDominio request, read as a form (cut at
    [&], then at [=]), has exactly five fields, in this order:
    [apipasswd], [apiuser], [domain], one of [ipv4] and [ipv6] by
    [ip.To4() != nil], and [name], each with its escaped value; no
    value, whatever characters the credentials hold, adds or hides a
    field. *)
Theorem dondominio_request_fields p c ip :
  ∃ body,
    http.Body (dondominio.Update_request p c ip) = Some body
    ∧ form.fields body
      = [ ["apipasswd"; url.QueryEscape (dondominio.password p)];
          ["apiuser"; url.QueryEscape (dondominio.username p)];
          ["domain"; url.QueryEscape (dondominio.domain p)];
          [if dondominio.isIPv4 ip then "ipv4" else "ipv6";
           url.QueryEscape (net.String ip)];
          ["name"; url.QueryEscape (dondominio.name p)] ].
Proof.
  eexists. split; [reflexivity |].
  unfold url.Encode. rewrite dondominio_encoded_pairs.
  rewrite fields_of_pairs; [reflexivity | done |].
  repeat constructor; by destruct (dondominio.isIPv4 ip).
Qed.

(** X15. The Namecheap request is a GET without body to
    [https://dynamicdns.park-your-domain.com/update] with a query that,
    read as a form, has the fields [domain], [host] and [password], and
    between [host] and [password] the field [ip] with the text of the
    requested address exactly when the provider is not set to use the
    provider's IP. With that setting the request does not depend on the
    requested address at all. *)
Theorem namecheap_request_query p c ip :
  http.Method (namecheap.Update_request p c ip) = "GET"
  ∧ http.Body (namecheap.Update_request p c ip) = None
  ∧ (∃ query,
       http.URL (namecheap.Update_request p c ip)
       = "https://dynamicdns.park-your-domain.com/update?" +:+ query
       ∧ form.fields query
         = ([ ["domain"; url.QueryEscape (namecheap.domain p)];
              ["host"; url.QueryEscape (namecheap.host p)] ]
              ++ (if namecheap.useProviderIP p then []
                  else [ ["ip"; url.QueryEscape (net.String ip)] ])
              ++ [ ["password"; url.QueryEscape (namecheap.password p)] ])%list)
  ∧ (namecheap.useProviderIP p = true →
     ∀ ip', namecheap.Update_request p c ip' = namecheap.Update_request p c ip).
Proof.
  split_and!; try reflexivity.
  - exists (url.Encode (namecheap.Update_values p ip)). split.
    + cbn. unfold url.String. cbn.
      unfold url.Encode at 1. rewrite namecheap_encoded_pairs.
      cbn [map app String.concat].
      unfold url.Encode. by rewrite namecheap_encoded_pairs.
    + unfold url.Encode. rewrite namecheap_encoded_pairs.
      rewrite fields_of_pairs.
      * by destruct (namecheap.useProviderIP p).
      * done.
      * destruct (namecheap.useProviderIP p); repeat constructor.
  - intros Huse ip'. unfold namecheap.Update_request, namecheap.Update_url,
      namecheap.Update_values. by rewrite Huse.
Qed.

End requests.

(** * Further properties of the health server *)

Section health_more.
Context `{!Repo}.
Variable srv : health.Server.
Import health.

Lemma exec_app evs1 : ∀ st evs2,
  exec srv st (evs1 ++ evs2) =
    match exec srv st evs1 with
    | Some st' => exec srv st' evs2
    | None => None
    end.
Proof.
  induction evs1 as [| ev evs1 IH]; intros st evs2; cbn; [done |].
  destruct (step srv st ev); [apply IH | done].
Qed.

Lemma step_watcher_discipline st ev st' :
  watcher_discipline st → step srv st ev = Some st' → watcher_discipline st'.
Proof.
  unfold watcher_discipline. destruct st as [pc w cn sh cl li lg].
  intros Hinv Hstep.
  destruct ev as [| | err | err]; cbn in Hinv, Hstep.
  - injection Hstep as <-. cbn. destruct w; [done | tauto | tauto].
  - unfold run_step in Hstep. cbn in Hstep.
    destruct pc as [| | e |]; try done.
    + destruct cn; cbn in Hstep; injection Hstep as <-; cbn; done.
    + destruct (negb (is_nil_error e) && negb cn);
        injection Hstep as <-; cbn; done.
  - destruct pc; try done. injection Hstep as <-. cbn. done.
  - unfold watcher_step in Hstep. cbn in Hstep. destruct w; try done.
    + destruct cn; try done. injection Hstep as <-. cbn. done.
    + injection Hstep as <-. destruct (negb (is_nil_error err)); cbn; tauto.
Qed.

Lemma exec_watcher_discipline evs : ∀ st st',
  watcher_discipline st → exec srv st evs = Some st' → watcher_discipline st'.
Proof.
  induction evs as [| ev evs IH]; intros st st' Hinv Hexec; cbn in Hexec.
  - by injection Hexec as <-.
  - destruct (step srv st ev) as [st1 |] eqn:Hstep; [| done].
    eapply IH; [| exact Hexec]. by eapply step_watcher_discipline.
Qed.

Lemma step_canceled st ev st' :
  step srv st ev = Some st' → canceled st = true → canceled st' = true.
Proof.
  intros Hstep Hcan. destruct ev as [| | err | err]; cbn in Hstep.
  - by injection Hstep as <-.
  - unfold run_step in Hstep. rewrite Hcan in Hstep.
    destruct (run st) as [| | e |]; try done; cbn in Hstep.
    + by injection Hstep as <-.
    + rewrite andb_false_r in Hstep. by injection Hstep as <-.
  - destruct (run st); try done. by injection Hstep as <-.
  - unfold watcher_step in Hstep. rewrite Hcan in Hstep.
    destruct (watcher st); try done; injection Hstep as <-; try done.
    by destruct (negb (is_nil_error err)).
Qed.

(** X16. Under every schedule of [Run]: the watcher leaves its wait, to
    log and to shut the server down, only when the context is canceled,
    so the server is never shut down while the context is live; and a
    context that is canceled stays canceled. *)
Theorem Run_shuts_down_only_after_cancel c evs st :
  Run srv c evs = Some st →
  (watcher st ≠ Waiting → canceled st = true)
  ∧ (inShutdown st = true → canceled st = true)
  ∧ (∀ evs' st', canceled st = true → exec srv st evs' = Some st' →
                 canceled st' = true).
Proof.
  intros Hrun.
  assert (Hinv : watcher_discipline st).
  { eapply exec_watcher_discipline; [| exact Hrun]. reflexivity. }
  unfold watcher_discipline in Hinv. split_and!.
  - destruct (watcher st); [done | tauto | tauto].
  - destruct (watcher st); intros; destruct_and?; congruence.
  - intros evs'. clear. revert st.
    induction evs' as [| ev evs' IH]; intros st st' Hcan Hexec; cbn in Hexec.
    + by injection Hexec as <-.
    + destruct (step srv st ev) as [st1 |] eqn:Hstep; [| done].
      eapply IH; [| exact Hexec]. by eapply step_canceled.
Qed.

(** X17. Once the context is canceled, [Run] returns as soon as the
    listener has exited, whatever the error of the exit is: the two
    statements after the exit lead out of the loop, [close(done)] runs
    (for the first and only time), and nothing is logged by [Run], so an
    exit after the cancellation is not reported as a crash and the
    listener is not started again. *)
Theorem Run_returns_after_cancel c evs st err :
  Run srv c evs = Some st →
  run st = Serving →
  canceled st = true →
  ∃ st', exec srv st [ListenerExit err; RunStep; RunStep] = Some st'
         ∧ run st' = Stopped
         ∧ closes st' = 1%nat
         ∧ listens st' = listens st
         ∧ log st' = log st.
Proof.
  intros Hrun Hpc Hcan.
  assert (Hinv : done_discipline st).
  { eapply exec_discipline; [apply start_discipline | exact Hrun]. }
  destruct Hinv as [[Hc _] | (_ & Hr & _)]; [| congruence].
  clear Hrun. destruct st as [pc w cn sh cl li lg]. cbn in *. subst.
  eexists. split.
  - cbn. unfold run_step. cbn. rewrite andb_false_r. cbn. reflexivity.
  - done.
Qed.

Lemma crash_again st err :
  run st = Serving → canceled st = false →
  ∃ st', exec srv st (crash err) = Some st'
         ∧ run st' = Serving ∧ canceled st' = false
         ∧ listens st' = S (listens st) ∧ closes st' = closes st.
Proof.
  intros Hpc Hcan.
  destruct (crash_restart srv st err Hpc Hcan) as (st' & He & Hr & Hx & Hl & Hc & _).
  by exists st'.
Qed.

Lemma crashes_restart errs : ∀ st,
  run st = Serving → canceled st = false →
  ∃ st', exec srv st (flat_map crash errs) = Some st'
         ∧ run st' = Serving ∧ canceled st' = false
         ∧ listens st' = (listens st + length errs)%nat
         ∧ closes st' = closes st.
Proof.
  induction errs as [| err errs IH]; intros st Hpc Hcan.
  - exists st. cbn. split_and!; try done; lia.
  - destruct (crash_again st err Hpc Hcan) as (st1 & He & Hr & Hx & Hl & Hc).
    destruct (IH st1 Hr Hx) as (st2 & He2 & Hr2 & Hx2 & Hl2 & Hc2).
    exists st2. cbn [flat_map]. rewrite exec_app, He.
    split_and!; try done; cbn [length]; first [lia | congruence].
Qed.

(** X18. While the context is live the listener is restarted without
    bound: after any number of crashes, one after the other, whatever
    their errors are, [Run] is inside [ListenAndServe] again, having
    called it once more than there were crashes, and [close(done)] has
    not run. *)
Theorem Run_restarts_after_every_crash (errs : list error) :
  ∃ st, Run srv false (RunStep :: flat_map crash errs) = Some st
        ∧ run st = Serving
        ∧ canceled st = false
        ∧ listens st = S (length errs)
        ∧ closes st = 0%nat.
Proof.
  unfold Run. cbn [exec step]. unfold run_step. cbn.
  match goal with
  | |- ∃ st, exec _ ?st0 _ = _ ∧ _ =>
      destruct (crashes_restart errs st0 eq_refl eq_refl)
        as (st' & He & Hr & Hx & Hl & Hc)
  end.
  exists st'. by split_and!.
Qed.

End health_more.

(** * The contract of [Update], where it holds *)

Section contract.
Context `{!Repo} `{!namecheap.Codec} `{!dondominio.Codec}.

(** X19. With a requested address that is not nil, the Namecheap
    [Update] always returns, and what it returns is a confirmed IP with
    a nil error or a nil IP with an error. The DonDominio [Update],
    whenever it returns, returns one of these two, for every requested
    address. *)
Theorem Update_contract_where_it_holds ctx client ip :
  (∀ p, ip ≠ None →
        ∃ r, namecheap.Update p ctx client ip = Returned r ∧ confirmed_or_failed r)
  ∧ (∀ p r, dondominio.Update p ctx client ip = Returned r → confirmed_or_failed r).
Proof.
  split.
  - intros p Hip. by apply namecheap_Update_contract.
  - intros p r. apply dondominio_Update_contract.
Qed.

(** X20. The Namecheap [Update] returns a nil IP together with a nil
    error in one situation only: the requested address is nil, the
    client answers 200, and the body decodes with no error text and an
    empty IP field. *)
Theorem namecheap_Update_nil_nil_only_without_IPs p ctx client ip :
  namecheap.Update p ctx client ip = Returned (None, None)
  ↔ ip = None
    ∧ ∃ c response parsed,
        ctx = Some c
        ∧ http.Do client (namecheap.Update_request p c None) = ok response
        ∧ http.StatusCode response = 200
        ∧ namecheap.xml_Decode (http.ResponseBody response) = ok parsed
        ∧ namecheap.Errors_Error parsed = ""
        ∧ namecheap.IP parsed = "".
Proof.
  split.
  - intros Hupd.
    assert (Hip : ip = None).
    { destruct ip as [b |]; [| done].
      destruct (namecheap_Update_contract p ctx client (Some b)) as (r & Hr & Hc);
        [done |].
      rewrite Hupd in Hr. injection Hr as <-.
      destruct Hc as [[Hn _] | [_ Hn]]; by cbn in Hn. }
    subst ip. split; [done |]. revert Hupd. unfold namecheap.Update.
    destruct ctx as [c |]; cbn [http.NewRequestWithContext]; [| done].
    change (namecheap.setHeaders _) with (namecheap.Update_request p c None).
    destruct (http.Do client _) as [response | err] eqn:Hdo; [| done].
    unfold namecheap.Update_response.
    destruct (http.StatusCode response =? http.StatusOK) eqn:Hstatus; [| done].
    cbn [negb].
    destruct (namecheap.xml_Decode _) as [parsed | err] eqn:Hdecode; [| done].
    destruct (String.eqb_spec (namecheap.Errors_Error parsed) "") as [Herr | Herr];
      [| done].
    cbn [negb].
    destruct (String.eqb_spec (namecheap.IP parsed) "") as [Hfield | Hfield].
    + intros _. exists c, response, parsed. split_and!; try done. by apply Z.eqb_eq.
    + destruct (net.ParseIP (namecheap.IP parsed)); [| done]. by cbn.
  - intros (-> & c & response & parsed & -> & Hdo & Hstatus & Hdecode & Herr & Hfield).
    rewrite (namecheap_Update_answered _ _ _ _ _ Hdo).
    by rewrite (namecheap_response_without_IP _ _ _ Hstatus Hdecode Herr Hfield).
Qed.

End contract.

(** * The further properties at concrete inputs *)

Lemma namecheap_Update_rejections_sample :
  @namecheap.Update sample.repo sample_more.namecheap_codec
    sample_more.namecheap_sending (Some sample.background)
    (sample.answering 200 sample_more.xml_error_and_ip) sample.ip_1234
  = Returned (None, Some (Wrapf ErrUnsuccessfulResponse "Passwords do not match")).
Proof.
  pose proof (@namecheap_Update_rejections sample.repo sample_more.namecheap_codec
                sample_more.namecheap_sending sample.background
                (sample.answering 200 sample_more.xml_error_and_ip) sample.ip_1234
                {| http.StatusCode := 200;
                   http.ResponseBody := sample_more.xml_error_and_ip |}
                eq_refl eq_refl) as [_ H].
  exact (H {| namecheap.Errors_Error := "Passwords do not match";
              namecheap.IP := "1.2.3.4" |} eq_refl ltac:(discriminate)).
Defined.

Lemma namecheap_Update_nil_IP_takes_vendor_IP_sample :
  @namecheap.Update sample.repo sample.namecheap_codec sample.namecheap_provider
    (Some sample.background) (sample.answering 200 sample.xml_ip_5678) None
  = Returned (net.IPv4 x05 x06 x07 x08, None).
Proof.
  exact (@namecheap_Update_nil_IP_takes_vendor_IP sample.repo sample.namecheap_codec
           sample.namecheap_provider sample.background
           (sample.answering 200 sample.xml_ip_5678)
           {| http.StatusCode := 200; http.ResponseBody := sample.xml_ip_5678 |}
           {| namecheap.Errors_Error := ""; namecheap.IP := "5.6.7.8" |}
           (net.v4InV6Prefix ++ [x05; x06; x07; x08])%list
           eq_refl eq_refl eq_refl eq_refl eq_refl).
Defined.

Lemma dondominio_Update_rejections_sample :
  @dondominio.Update sample.repo sample_more.dondominio_codec
    (sample.dondominio_provider ipversion.IP4) (Some sample.background)
    (sample.answering 200 sample_more.json_bad_auth) sample.ip_1234
  = Returned (None, Some (Wrapf ErrUnsuccessfulResponse
                            ("bad auth" +:+ " (error code " +:+ gostr.itoa 5 +:+ ")"))).
Proof.
  pose proof (@dondominio_Update_rejections sample.repo sample_more.dondominio_codec
                (sample.dondominio_provider ipversion.IP4) sample.background
                (sample.answering 200 sample_more.json_bad_auth) sample.ip_1234
                {| http.StatusCode := 200;
                   http.ResponseBody := sample_more.json_bad_auth |}
                eq_refl eq_refl) as [_ H].
  exact (H {| dondominio.Success := false; dondominio.ErrorCode := 5;
              dondominio.ErrorCodeMessage := "bad auth";
              dondominio.GlueRecords := [] |} eq_refl eq_refl).
Defined.

Example unsuccessful_text_sample :
  "bad auth" +:+ " (error code " +:+ gostr.itoa 5 +:+ ")" = "bad auth (error code 5)".
Proof. reflexivity. Qed.

Lemma namecheap_Update_confirmed_sound_sample :
  ∃ c response parsed,
    Some sample.background = Some c
    ∧ http.Do (sample.answering 200 sample.xml_ip_1234)
        (@namecheap.Update_request sample.repo sample.namecheap_provider c
           sample.ip_1234) = ok response
    ∧ http.StatusCode response = 200
    ∧ namecheap.xml_Decode (Codec := sample.namecheap_codec)
        (http.ResponseBody response) = ok parsed
    ∧ namecheap.Errors_Error parsed = ""
    ∧ ((namecheap.IP parsed = "" ∧ sample.ip_1234 = net.IPv4 x01 x02 x03 x04)
       ∨ (namecheap.IP parsed ≠ ""
          ∧ net.ParseIP (namecheap.IP parsed) = net.IPv4 x01 x02 x03 x04
          ∧ length (net.v4InV6Prefix ++ [x01; x02; x03; x04]) = 16%nat
          ∧ (sample.ip_1234 = None
             ∨ net.Equal sample.ip_1234 (net.IPv4 x01 x02 x03 x04) = true))).
Proof.
  apply (@namecheap_Update_confirmed_sound sample.repo sample.namecheap_codec
           sample.namecheap_provider (Some sample.background)
           (sample.answering 200 sample.xml_ip_1234) sample.ip_1234
           (net.v4InV6Prefix ++ [x01; x02; x03; x04])%list).
  vm_compute. reflexivity.
Defined.

Lemma dondominio_Update_confirmed_sound_sample :
  sample.ip_2001_db8_1 ≠ None
  ∧ net.Equal sample.ip_2001_db8_1 sample.ip_2001_db8_1 = true.
Proof.
  destruct (@dondominio_Update_confirmed_sound sample.repo
              sample_more.dondominio_codec (sample.dondominio_provider ipversion.IP4)
              (Some sample.background)
              (sample.answering 200 sample_more.json_glue_v6) sample.ip_2001_db8_1
              [x20; x01; x0d; xb8; x00; x00; x00; x00;
               x00; x00; x00; x00; x00; x00; x00; x01])
    as (Hnil & Heq & _).
  - vm_compute. reflexivity.
  - split; [exact Hnil | exact Heq].
Defined.

Lemma namecheap_Update_echoed_IPv4_sample :
  @namecheap.Update sample.repo sample.namecheap_codec sample_more.namecheap_sending
    (Some sample.background) (sample.answering 200 sample.xml_ip_1234) sample.ip_1234
  = Returned (net.IPv4 x01 x02 x03 x04, None).
Proof.
  exact (@namecheap_Update_echoed_IPv4 sample.repo sample.namecheap_codec
           sample_more.namecheap_sending sample.background
           (sample.answering 200 sample.xml_ip_1234) sample.ip_1234
           x01 x02 x03 x04
           {| http.StatusCode := 200; http.ResponseBody := sample.xml_ip_1234 |}
           {| namecheap.Errors_Error := ""; namecheap.IP := "1.2.3.4" |}
           eq_refl eq_refl eq_refl eq_refl eq_refl eq_refl).
Defined.

Lemma dondominio_Update_echoed_IPv4_sample :
  @dondominio.Update sample.repo sample.dondominio_codec
    (sample.dondominio_provider ipversion.IP6) (Some sample.background)
    (sample.answering 200 sample.json_glue_1234) (net.IPv4 x01 x02 x03 x04)
  = Returned (net.IPv4 x01 x02 x03 x04, None).
Proof.
  exact (@dondominio_Update_echoed_IPv4 sample.repo sample.dondominio_codec
           (sample.dondominio_provider ipversion.IP6) sample.background
           (sample.answering 200 sample.json_glue_1234) (net.IPv4 x01 x02 x03 x04)
           x01 x02 x03 x04
           {| http.StatusCode := 200; http.ResponseBody := sample.json_glue_1234 |}
           {| dondominio.Success := true; dondominio.ErrorCode := 0;
              dondominio.ErrorCodeMessage := "";
              dondominio.GlueRecords :=
                [{| dondominio.IPv4 := "1.2.3.4"; dondominio.IPv6 := "" |}] |}
           {| dondominio.IPv4 := "1.2.3.4"; dondominio.IPv6 := "" |} []
           eq_refl eq_refl eq_refl eq_refl eq_refl eq_refl eq_refl).
Defined.

Lemma Run_shuts_down_only_after_cancel_sample :
  ∃ st,
    @health.Run sample.repo sample.server false sample.crash_then_cancel = Some st
    ∧ health.inShutdown st = true
    ∧ health.canceled st = true.
Proof.
  destruct (@health.Run sample.repo sample.server false sample.crash_then_cancel)
    as [st |] eqn:E; [| vm_compute in E; discriminate].
  exists st. split; [reflexivity |].
  destruct (@Run_shuts_down_only_after_cancel sample.repo sample.server false
              sample.crash_then_cancel st E) as (_ & Hshut & _).
  assert (Hin : health.inShutdown st = true).
  { vm_compute in E. injection E as <-. reflexivity. }
  split; [exact Hin | exact (Hshut Hin)].
Defined.

Lemma Run_returns_after_cancel_sample :
  ∃ st st',
    @health.Run sample.repo sample.server false [health.RunStep; health.Cancel]
    = Some st
    ∧ @health.exec sample.repo sample.server st
        [health.ListenerExit (Some (Foreign "http: Server closed"));
         health.RunStep; health.RunStep] = Some st'
    ∧ health.run st' = health.Stopped
    ∧ health.closes st' = 1%nat
    ∧ health.listens st' = 1%nat.
Proof.
  destruct (@health.Run sample.repo sample.server false
              [health.RunStep; health.Cancel]) as [st |] eqn:E;
    [| vm_compute in E; discriminate].
  destruct (@Run_returns_after_cancel sample.repo sample.server false
              [health.RunStep; health.Cancel] st
              (Some (Foreign "http: Server closed")) E)
    as (st' & Hexec & Hrun & Hcloses & Hlistens & _).
  - vm_compute in E. injection E as <-. reflexivity.
  - vm_compute in E. injection E as <-. reflexivity.
  - exists st, st'. split; [reflexivity |]. split; [exact Hexec |].
    split; [exact Hrun |]. split; [exact Hcloses |].
    rewrite Hlistens. vm_compute in E. injection E as <-. reflexivity.
Defined.

(** * The address received, in the other cases *)

Section received_address.
Context `{!Repo} `{!namecheap.Codec} `{!dondominio.Codec}.

(** X21. In the DonDominio [Update], for a 200 response with
    [success = true] and at least one glue record, only the first record
    is read, in the field chosen by [ip.To4() != nil]: when that text
    does not parse, the empty text included, the result is
    [ErrIPReceivedMalformed] with the text; when it parses to an address
    that is not equal to the requested one, the result is
    [ErrIPReceivedMismatch] with the address parsed; when it parses to
    an equal address, that address is returned. *)
Theorem dondominio_Update_received_IP_checked p c client ip response data
    first others :
  http.Do client (dondominio.Update_request p c ip) = ok response →
  http.StatusCode response = 200 →
  dondominio.json_Decode (http.ResponseBody response) = ok data →
  dondominio.Success data = true →
  dondominio.GlueRecords data = first :: others →
  let text := if dondominio.isIPv4 ip then dondominio.IPv4 first
              else dondominio.IPv6 first in
  (net.ParseIP text = None →
   dondominio.Update p (Some c) client ip
   = Returned (None, Some (Wrapf ErrIPReceivedMalformed text)))
  ∧ (∀ b, net.ParseIP text = Some b → net.Equal ip (Some b) = false →
          dondominio.Update p (Some c) client ip
          = Returned (None, Some (Wrapf ErrIPReceivedMismatch (net.String (Some b)))))
  ∧ (∀ b, net.ParseIP text = Some b → net.Equal ip (Some b) = true →
          dondominio.Update p (Some c) client ip = Returned (Some b, None)).
Proof.
  intros Hdo Hstatus Hdecode Hsuccess Hglue text.
  rewrite (dondominio_Update_answered _ _ _ _ _ Hdo).
  rewrite (dondominio_response_first_glue _ _ _ _ _ Hstatus Hdecode Hsuccess Hglue).
  fold text. unfold dondominio.received. split_and!.
  - by intros ->.
  - by intros b -> ->.
  - by intros b -> ->.
Qed.

(** X22. In the Namecheap [Update], for a requested address that is not
    nil and a 200 response with no error text whose IP field parses to
    an equal address (whatever its form, 4 or 16 bytes), the address
    parsed is returned with a nil error. *)
Theorem namecheap_Update_confirms_equal_IP p c client ip response parsed b :
  http.Do client (namecheap.Update_request p c ip) = ok response →
  http.StatusCode response = 200 →
  namecheap.xml_Decode (http.ResponseBody response) = ok parsed →
  namecheap.Errors_Error parsed = "" →
  net.ParseIP (namecheap.IP parsed) = Some b →
  net.Equal ip (Some b) = true →
  namecheap.Update p (Some c) client ip = Returned (Some b, None).
Proof.
  intros Hdo Hstatus Hdecode Herr Hparse Heq.
  rewrite (namecheap_Update_answered _ _ _ _ _ Hdo).
  assert (Hfield : namecheap.IP parsed ≠ "").
  { intros E. rewrite E in Hparse. discriminate. }
  rewrite (namecheap_response_with_IP _ _ _ Hstatus Hdecode Herr Hfield).
  by rewrite Hparse, Heq, andb_false_r.
Qed.

End received_address.

(** The request asks for an IPv6 address; the first glue record has only
    its [ipv4] field filled. *)
Lemma dondominio_Update_received_IP_checked_sample :
  @dondominio.Update sample.repo sample.dondominio_codec
    (sample.dondominio_provider ipversion.IP6) (Some sample.background)
    (sample.answering 200 sample.json_glue_1234) sample.ip_2001_db8_1
  = Returned (None, Some (Wrapf ErrIPReceivedMalformed "")).
Proof.
  pose proof (@dondominio_Update_received_IP_checked sample.repo
                sample.dondominio_codec (sample.dondominio_provider ipversion.IP6)
                sample.background (sample.answering 200 sample.json_glue_1234)
                sample.ip_2001_db8_1
                {| http.StatusCode := 200; http.ResponseBody := sample.json_glue_1234 |}
                {| dondominio.Success := true; dondominio.ErrorCode := 0;
                   dondominio.ErrorCodeMessage := "";
                   dondominio.GlueRecords :=
                     [{| dondominio.IPv4 := "1.2.3.4"; dondominio.IPv6 := "" |}] |}
                {| dondominio.IPv4 := "1.2.3.4"; dondominio.IPv6 := "" |} []
                eq_refl eq_refl eq_refl eq_refl eq_refl) as H.
  cbv zeta in H. destruct H as [H _]. exact (H eq_refl).
Defined.

Lemma namecheap_Update_confirms_equal_IP_sample :
  @namecheap.Update sample.repo sample.namecheap_codec sample.namecheap_provider
    (Some sample.background) (sample.answering 200 sample.xml_ip_1234)
    (net.IPv4 x01 x02 x03 x04)
  = Returned (net.IPv4 x01 x02 x03 x04, None).
Proof.
  exact (@namecheap_Update_confirms_equal_IP sample.repo sample.namecheap_codec
           sample.namecheap_provider sample.background
           (sample.answering 200 sample.xml_ip_1234) (net.IPv4 x01 x02 x03 x04)
           {| http.StatusCode := 200; http.ResponseBody := sample.xml_ip_1234 |}
           {| namecheap.Errors_Error := ""; namecheap.IP := "1.2.3.4" |}
           (net.v4InV6Prefix ++ [x01; x02; x03; x04])%list
           eq_refl eq_refl eq_refl eq_refl eq_refl eq_refl).
Defined.
